(** * The OneAgent reconciler (pkg/controller/oneagent/oneagent_controller.go)

    A shallow embedding of the controller's reconcile loop.  The cluster
    client, the Dynatrace client, the scheme and the helpers of
    oneagent_utils.go are collaborators: they are fields of one record the
    whole development is parameterised by.  Every call to a collaborator
    that has an effect is recorded in a trace, next to the collaborator's
    own state, so that statements about the order and the number of calls
    can be made. *)

From Stdlib Require Import ZArith Lia.
From stdpp Require Import base strings gmap list.

Local Open Scope string_scope.
Local Open Scope list_scope.
Local Open Scope Z_scope.

(** ** Data model *)

(** metav1.Time; [ZeroTime] is the zero value of the Go struct. *)
Inductive Time :=
| ZeroTime
| UnixNano (t : Z).

(** time.Duration counts nanoseconds. *)
Definition Duration := Z.
Definition Second : Duration := 1000000000.
Definition Minute : Duration := 60 * Second.

(** corev1.EnvVar, with the one kind of source this controller builds. *)
Record SecretKeySelector := {
  SecretKeySelector_Name : string;
  SecretKeySelector_Key : string
}.

Record EnvVar := {
  EnvVar_Name : string;
  EnvVar_Value : string;
  EnvVar_ValueFrom : option SecretKeySelector
}.

Record Toleration := {
  Toleration_Key : string;
  Toleration_Operator : string;
  Toleration_Value : string;
  Toleration_Effect : string
}.

Record ResourceRequirements := {
  Resources_Limits : list (string * string);
  Resources_Requests : list (string * string)
}.

(** dynatracev1alpha1.OneAgentSpec: the fields the controller reads.
    [WaitReadySeconds] is a [*uint16]; [None] is the nil pointer. *)
Record OneAgentSpec := {
  Spec_ApiUrl : string;
  Spec_SkipCertCheck : bool;
  Spec_NodeSelector : list (string * string);
  Spec_Tolerations : list Toleration;
  Spec_WaitReadySeconds : option Z;
  Spec_Image : string;
  Spec_Tokens : string;
  Spec_Args : list string;
  Spec_Env : list EnvVar;
  Spec_Resources : ResourceRequirements;
  Spec_PriorityClassName : string;
  Spec_DisableAgentUpdate : bool;
  Spec_EnableIstio : bool
}.

(** Modelled from the spec: the declaration of OneAgentInstance is not part
    of the sources at hand; the persisted layout is described as a mapping
    from pod identity to {node, version, isReady}. *)
Record OneAgentInstance := {
  Instance_Node : string;
  Instance_Version : string;
  Instance_IsReady : bool
}.

(** dynatracev1alpha1.OneAgentStatus.  [Status_Items] is a Go map: [None] is
    the nil map, which reflect.DeepEqual tells apart from an empty one. *)
Record OneAgentStatus := {
  Status_Version : string;
  Status_Items : option (gmap string OneAgentInstance);
  Status_UpdatedTimestamp : Time
}.

(** [dynatracev1alpha1.OneAgentStatus{}] *)
Definition emptyStatus : OneAgentStatus :=
  {| Status_Version := ""; Status_Items := None; Status_UpdatedTimestamp := ZeroTime |}.

Record OneAgent := {
  OneAgent_Name : string;
  OneAgent_Namespace : string;
  OneAgent_Spec : OneAgentSpec;
  OneAgent_Status : OneAgentStatus
}.

Record NamespacedName := {
  NN_Namespace : string;
  NN_Name : string
}.

Record PodCondition := {
  Condition_Type : string;
  Condition_Status : string
}.

(** corev1.Pod: name, node and phase are what the controller reads; the
    conditions are there for the readiness predicate of oneagent_utils.go. *)
Record Pod := {
  Pod_Name : string;
  Pod_NodeName : string;
  Pod_Phase : string;
  Pod_Conditions : list PodCondition
}.

Definition PodRunning : string := "Running".
Definition PullAlways : string := "Always".

Record Probe := {
  Probe_Command : list string;
  Probe_InitialDelaySeconds : Z;
  Probe_PeriodSeconds : Z;
  Probe_TimeoutSeconds : Z
}.

Record VolumeMount := {
  VolumeMount_Name : string;
  VolumeMount_MountPath : string
}.

Record Volume := {
  Volume_Name : string;
  Volume_HostPath : string
}.

Record Container := {
  Container_Args : list string;
  Container_Env : list EnvVar;
  Container_Image : string;
  Container_ImagePullPolicy : string;
  Container_Name : string;
  Container_ReadinessProbe : option Probe;
  Container_Resources : ResourceRequirements;
  Container_Privileged : option bool;
  Container_VolumeMounts : list VolumeMount
}.

Record PodSpec := {
  PodSpec_Containers : list Container;
  PodSpec_HostNetwork : bool;
  PodSpec_HostPID : bool;
  PodSpec_HostIPC : bool;
  PodSpec_NodeSelector : list (string * string);
  PodSpec_PriorityClassName : string;
  PodSpec_ServiceAccountName : string;
  PodSpec_Tolerations : list Toleration;
  PodSpec_Volumes : list Volume
}.

Record DaemonSetSpec := {
  DSSpec_Selector : list (string * string);
  DSSpec_TemplateLabels : list (string * string);
  DSSpec_TemplateSpec : PodSpec
}.

Record DaemonSet := {
  DaemonSet_Name : string;
  DaemonSet_Namespace : string;
  DaemonSet_Labels : list (string * string);
  DaemonSet_Owner : option (string * string);
  DaemonSet_Spec : DaemonSetSpec
}.

Record ListOptions := {
  ListOptions_Namespace : string;
  ListOptions_LabelSelector : list (string * string)
}.

Global Instance OneAgentInstance_eq_dec : EqDecision OneAgentInstance.
Proof. solve_decision. Defined.

(** reconcile.Result *)
Record Result := {
  Requeue : bool;
  RequeueAfter : Duration
}.

(** ** Errors, log values and the trace *)

Inductive value :=
| VStr (s : string)
| VInt (n : Z)
| VStatus (st : OneAgentStatus)
| VListOptions (o : ListOptions).

(** A Go [error].  [NotFound] is the class errors.IsNotFound recognises,
    [Failure] any other error of a collaborator, [Errorf] an error made by
    fmt.Errorf in this file, kept as its format and arguments. *)
Inductive error :=
| NotFound (what : string)
| Failure (msg : string)
| Errorf (format : string) (args : list value).

Definition IsNotFound (e : error) : bool :=
  match e with
  | NotFound _ => true
  | _ => false
  end.

Inductive Event :=
| EvGet (key : NamespacedName)
| EvGetDaemonSet (key : NamespacedName)
| EvCreate (ds : DaemonSet)
| EvUpdateDaemonSet (ds : DaemonSet)
| EvUpdate (obj : OneAgent)
| EvStatusUpdate (obj : OneAgent)
| EvDelete (pod : Pod)
| EvList (o : ListOptions) (r : error + list Pod)
| EvSleep (d : Duration)
| EvNow
| EvBuildClient
| EvIstio
| EvGetVersion
| EvGetPodsToRestart
| EvInfo (msg : string) (kv : list (string * value))
| EvInfof (format : string) (e : error)
| EvError (e : error) (msg : string) (kv : list (string * value)).

(** ** Collaborators *)

(** What the controller calls and does not define.  [World] is the state of
    everything outside the process (the API server, its cache, the vendor
    API, the clock); a write that hands the instance to the client returns
    the object as the client left it.  [reconcileIstio] and
    [getPodsToRestart], which are not among the sources at hand, are taken
    not to change the instance they are given. *)
Record Collaborators (World DtClient : Type) := {
  client_Get : NamespacedName -> World -> (error + OneAgent) * World;
  client_GetDaemonSet : NamespacedName -> World -> (error + DaemonSet) * World;
  client_Create : DaemonSet -> World -> option error * World;
  client_UpdateDaemonSet : DaemonSet -> World -> option error * World;
  client_Update : OneAgent -> World -> (OneAgent * option error) * World;
  client_StatusUpdate : OneAgent -> World -> (OneAgent * option error) * World;
  client_Delete : Pod -> World -> option error * World;
  client_List : ListOptions -> World -> (error + list Pod) * World;
  metav1_Now : World -> Time * World;
  time_Sleep : Duration -> World -> World;
  scheme_Default : OneAgent -> OneAgent;
  validate : OneAgent -> option error;
  dynatraceClientFunc : OneAgent -> World -> (error + DtClient) * World;
  reconcileIstio : OneAgent -> DtClient -> World -> (bool * bool) * World;
  SetControllerReference : OneAgent -> DaemonSet -> error + DaemonSet;
  hasSpecChanged : DaemonSetSpec -> OneAgentSpec -> bool;
  buildLabels : string -> list (string * string);
  GetVersionForLatest : DtClient -> World -> (error + string) * World;
  getPodsToRestart :
    list Pod -> DtClient -> OneAgent -> World ->
    (list Pod * option (gmap string OneAgentInstance)) * World;
  getPodReadyState : Pod -> bool
}.

Arguments client_Get {World DtClient}.
Arguments client_GetDaemonSet {World DtClient}.
Arguments client_Create {World DtClient}.
Arguments client_UpdateDaemonSet {World DtClient}.
Arguments client_Update {World DtClient}.
Arguments client_StatusUpdate {World DtClient}.
Arguments client_Delete {World DtClient}.
Arguments client_List {World DtClient}.
Arguments metav1_Now {World DtClient}.
Arguments time_Sleep {World DtClient}.
Arguments scheme_Default {World DtClient}.
Arguments validate {World DtClient}.
Arguments dynatraceClientFunc {World DtClient}.
Arguments reconcileIstio {World DtClient}.
Arguments SetControllerReference {World DtClient}.
Arguments hasSpecChanged {World DtClient}.
Arguments buildLabels {World DtClient}.
Arguments GetVersionForLatest {World DtClient}.
Arguments getPodsToRestart {World DtClient}.
Arguments getPodReadyState {World DtClient}.

(** ** The monad of the embedding *)

(** The state threaded through the code: the outside world and the trace of
    the calls made so far, oldest first. *)
Record State (World : Type) := {
  world : World;
  trace : list Event
}.

Arguments world {World}.
Arguments trace {World}.

(** A run returns, panics (a Go run-time panic) or is cut off by the fuel
    that bounds the unrolling of the polling loop. *)
Inductive outcome (World A : Type) :=
| Ret (a : A) (s : State World)
| Panic (msg : string) (s : State World)
| OutOfFuel (s : State World).

Arguments Ret {World A}.
Arguments Panic {World A}.
Arguments OutOfFuel {World A}.

Definition final {World A} (o : outcome World A) : State World :=
  match o with
  | Ret _ s => s
  | Panic _ s => s
  | OutOfFuel s => s
  end.

Definition M (World A : Type) : Type := State World -> outcome World A.

Definition ret {World A} (a : A) : M World A := fun s => Ret a s.

Definition bind {World A B} (m : M World A) (k : A -> M World B) : M World B :=
  fun s =>
    match m s with
    | Ret a s' => k a s'
    | Panic msg s' => Panic msg s'
    | OutOfFuel s' => OutOfFuel s'
    end.

Definition panic {World A} (msg : string) : M World A := fun s => Panic msg s.

Declare Scope go_scope.
Delimit Scope go_scope with go.
Notation "x <~ m ; k" := (bind m (fun x => k))
  (at level 20, m at level 100, k at level 200, only parsing) : go_scope.
Notation "' p <~ m ; k" := (bind m (fun x => match x with p => k end))
  (at level 20, p pattern, m at level 100, k at level 200, only parsing) : go_scope.
Local Open Scope go_scope.

(** ** The controller *)

Section Controller.

Context {World DtClient : Type}.
Variable K : Collaborators World DtClient.

Abbreviation Go A := (M World A).

(** An effect of a collaborator: run it on the world, record the event;
    [observe] records the answer in the event. *)
Definition observe {A} (ev : A -> Event) (f : World -> A * World) : Go A :=
  fun s =>
    let '(a, w) := f (world s) in
    Ret a {| world := w; trace := trace s ++ [ev a] |}.

Definition call {A} (ev : Event) (f : World -> A * World) : Go A :=
  observe (fun _ => ev) f.

Definition emit (ev : Event) : Go unit :=
  fun s => Ret tt {| world := world s; trace := trace s ++ [ev] |}.

Definition Info (msg : string) (kv : list (string * value)) : Go unit :=
  emit (EvInfo msg kv).

Definition Error (e : error) (msg : string) (kv : list (string * value)) : Go unit :=
  emit (EvError e msg kv).

Definition Sleep (d : Duration) : Go unit :=
  call (EvSleep d) (fun w => (tt, time_Sleep K d w)).

Definition withStatus (instance : OneAgent) (st : OneAgentStatus) : OneAgent :=
  {| OneAgent_Name := OneAgent_Name instance;
     OneAgent_Namespace := OneAgent_Namespace instance;
     OneAgent_Spec := OneAgent_Spec instance;
     OneAgent_Status := st |}.

Definition withSpec (instance : OneAgent) (sp : OneAgentSpec) : OneAgent :=
  {| OneAgent_Name := OneAgent_Name instance;
     OneAgent_Namespace := OneAgent_Namespace instance;
     OneAgent_Spec := sp;
     OneAgent_Status := OneAgent_Status instance |}.

Definition withUpdatedTimestamp (st : OneAgentStatus) (t : Time) : OneAgentStatus :=
  {| Status_Version := Status_Version st;
     Status_Items := Status_Items st;
     Status_UpdatedTimestamp := t |}.

(** [updateCR]: the instance is passed by pointer, so the instance as the
    function leaves it is returned next to the error. *)
Definition updateCR (instance : OneAgent) : Go (OneAgent * option error) :=
  now <~ call EvNow (metav1_Now K);
  let instance := withStatus instance (withUpdatedTimestamp (OneAgent_Status instance) now) in
  let newStatus := OneAgent_Status instance in
  let instance := withStatus instance emptyStatus in
  '(instance, err) <~ call (EvUpdate instance) (client_Update K instance);
  match err with
  | Some e => ret (instance, Some e)
  | None =>
      let instance := withStatus instance newStatus in
      call (EvStatusUpdate instance) (client_StatusUpdate K instance)
  end.

Definition dynatracePaasToken : string := "paasToken".
Definition dynatraceApiToken : string := "apiToken".

(** time between consecutive queries for a new pod to get ready *)
Definition splayTimeSeconds : Z := 10.

(** Addition of two uint16 values. *)
Definition uint16_add (a b : Z) : Z := (a + b) mod 65536.

Definition withEnv (sp : OneAgentSpec) (env : list EnvVar) : OneAgentSpec :=
  {| Spec_ApiUrl := Spec_ApiUrl sp;
     Spec_SkipCertCheck := Spec_SkipCertCheck sp;
     Spec_NodeSelector := Spec_NodeSelector sp;
     Spec_Tolerations := Spec_Tolerations sp;
     Spec_WaitReadySeconds := Spec_WaitReadySeconds sp;
     Spec_Image := Spec_Image sp;
     Spec_Tokens := Spec_Tokens sp;
     Spec_Args := Spec_Args sp;
     Spec_Env := env;
     Spec_Resources := Spec_Resources sp;
     Spec_PriorityClassName := Spec_PriorityClassName sp;
     Spec_DisableAgentUpdate := Spec_DisableAgentUpdate sp;
     Spec_EnableIstio := Spec_EnableIstio sp |}.

Definition withTokens (sp : OneAgentSpec) (tokens : string) : OneAgentSpec :=
  {| Spec_ApiUrl := Spec_ApiUrl sp;
     Spec_SkipCertCheck := Spec_SkipCertCheck sp;
     Spec_NodeSelector := Spec_NodeSelector sp;
     Spec_Tolerations := Spec_Tolerations sp;
     Spec_WaitReadySeconds := Spec_WaitReadySeconds sp;
     Spec_Image := Spec_Image sp;
     Spec_Tokens := tokens;
     Spec_Args := Spec_Args sp;
     Spec_Env := Spec_Env sp;
     Spec_Resources := Spec_Resources sp;
     Spec_PriorityClassName := Spec_PriorityClassName sp;
     Spec_DisableAgentUpdate := Spec_DisableAgentUpdate sp;
     Spec_EnableIstio := Spec_EnableIstio sp |}.

Definition withVersion (st : OneAgentStatus) (v : string) : OneAgentStatus :=
  {| Status_Version := v;
     Status_Items := Status_Items st;
     Status_UpdatedTimestamp := Status_UpdatedTimestamp st |}.

Definition withItems (st : OneAgentStatus) (items : option (gmap string OneAgentInstance))
  : OneAgentStatus :=
  {| Status_Version := Status_Version st;
     Status_Items := items;
     Status_UpdatedTimestamp := Status_UpdatedTimestamp st |}.

Definition newPodSpecForCR (instance : OneAgent) : PodSpec :=
  let trueVar := true in
  {| PodSpec_Containers :=
       [ {| Container_Args := Spec_Args (OneAgent_Spec instance);
            Container_Env := Spec_Env (OneAgent_Spec instance);
            Container_Image := Spec_Image (OneAgent_Spec instance);
            Container_ImagePullPolicy := PullAlways;
            Container_Name := "dynatrace-oneagent";
            Container_ReadinessProbe :=
              Some {| Probe_Command :=
                        ["/bin/sh"; "-c"; "grep -q oneagentwatchdo /proc/[0-9]*/stat"];
                      Probe_InitialDelaySeconds := 30;
                      Probe_PeriodSeconds := 30;
                      Probe_TimeoutSeconds := 1 |};
            Container_Resources := Spec_Resources (OneAgent_Spec instance);
            Container_Privileged := Some trueVar;
            Container_VolumeMounts :=
              [ {| VolumeMount_Name := "host-root"; VolumeMount_MountPath := "/mnt/root" |} ] |} ];
     PodSpec_HostNetwork := true;
     PodSpec_HostPID := true;
     PodSpec_HostIPC := true;
     PodSpec_NodeSelector := Spec_NodeSelector (OneAgent_Spec instance);
     PodSpec_PriorityClassName := Spec_PriorityClassName (OneAgent_Spec instance);
     PodSpec_ServiceAccountName := "dynatrace-oneagent";
     PodSpec_Tolerations := Spec_Tolerations (OneAgent_Spec instance);
     PodSpec_Volumes := [ {| Volume_Name := "host-root"; Volume_HostPath := "/" |} ] |}.

Definition newDaemonSetForCR (instance : OneAgent) : DaemonSet :=
  let selector := buildLabels K (OneAgent_Name instance) in
  let podSpec := newPodSpecForCR instance in
  {| DaemonSet_Name := OneAgent_Name instance;
     DaemonSet_Namespace := OneAgent_Namespace instance;
     DaemonSet_Labels := selector;
     DaemonSet_Owner := None;
     DaemonSet_Spec :=
       {| DSSpec_Selector := selector;
          DSSpec_TemplateLabels := selector;
          DSSpec_TemplateSpec := podSpec |} |}.

Definition installerTokenEnv (tokens : string) : EnvVar :=
  {| EnvVar_Name := "ONEAGENT_INSTALLER_TOKEN";
     EnvVar_Value := "";
     EnvVar_ValueFrom :=
       Some {| SecretKeySelector_Name := tokens;
               SecretKeySelector_Key := dynatracePaasToken |} |}.

(** [reconcileRollout].  [instance.Spec.Env[0]] is a run-time panic on an
    empty slice.  The two appends build the new entry followed by the old
    list. *)
Definition reconcileRollout (instance : OneAgent) : Go (OneAgent * bool * option error) :=
  match Spec_Env (OneAgent_Spec instance) !! 0%nat with
  | None => panic "index out of range"
  | Some env0 =>
      let '(instance, updateCR) :=
        if negb (String.eqb (EnvVar_Name env0) "ONEAGENT_INSTALLER_TOKEN") then
          (withSpec instance
             (withEnv (OneAgent_Spec instance)
                (take 0 (Spec_Env (OneAgent_Spec instance)) ++
                 ([installerTokenEnv (Spec_Tokens (OneAgent_Spec instance))] ++
                  drop 0 (Spec_Env (OneAgent_Spec instance))))),
           true)
        else (instance, false) in
      let dsDesired := newDaemonSetForCR instance in
      match SetControllerReference K instance dsDesired with
      | inl err => ret (instance, false, Some err)
      | inr dsDesired =>
          let key := {| NN_Namespace := DaemonSet_Namespace dsDesired;
                        NN_Name := DaemonSet_Name dsDesired |} in
          r <~ call (EvGetDaemonSet key) (client_GetDaemonSet K key);
          match r with
          | inl err =>
              if IsNotFound err then
                _ <~ Info "creating new daemonset" [];
                err <~ call (EvCreate dsDesired) (client_Create K dsDesired);
                match err with
                | Some e => ret (instance, false, Some e)
                | None => ret (instance, updateCR, None)
                end
              else ret (instance, false, Some err)
          | inr dsActual =>
              if hasSpecChanged K (DaemonSet_Spec dsActual) (OneAgent_Spec instance) then
                _ <~ Info "updating existing daemonset" [];
                err <~ call (EvUpdateDaemonSet dsDesired) (client_UpdateDaemonSet K dsDesired);
                match err with
                | Some e => ret (instance, false, Some e)
                | None => ret (instance, updateCR, None)
                end
              else ret (instance, updateCR, None)
          end
      end
  end.

(** *** Waiting for the replacement pod *)

(** The filter of [waitPodReadyState]: the pods that are not skipped by the
    [continue] of the inner loop, appended in the order of the list. *)
Definition skipPod (pod p : Pod) : bool :=
  negb (String.eqb (Pod_NodeName p) (Pod_NodeName pod))
  || negb (String.eqb (Pod_Phase p) PodRunning)
  || String.eqb (Pod_Name p) (Pod_Name pod).

Definition foundPods (pod : Pod) (items : list Pod) : list Pod :=
  fold_left (fun found p => if skipPod pod p then found else found ++ [p]) items [].

Inductive loopctl :=
| Break
| Continue.

Definition listOptionsFor (instance : OneAgent) : ListOptions :=
  {| ListOptions_Namespace := OneAgent_Namespace instance;
     ListOptions_LabelSelector := buildLabels K (OneAgent_Name instance) |}.

(** What one poll decides from the pods it was given: how the loop goes on
    and the value of [status] after it.  [status] is nil when this is
    reached, the list call having just succeeded.  [foundPods[0]] is only
    read behind [n == 1]. *)
Definition judgePods (pod : Pod) (items : list Pod) : loopctl * option error :=
  let found := foundPods pod items in
  let n := length found in
  if Nat.eqb n 0%nat then
    (Continue,
     Some (Errorf "waiting for pod to be recreated on node: %s" [VStr (Pod_NodeName pod)]))
  else if Nat.eqb n 1%nat && match found !! 0%nat with
                         | Some p => getPodReadyState K p
                         | None => false
                         end then
    (Break, None)
  else if Nat.ltb 1%nat n then
    (Continue, Some (Errorf "too many pods found: expected=1 actual=%d" [VInt (Z.of_nat n)]))
  else (Continue, None).

(** The body of the [for] loop of [waitPodReadyState]. *)
Definition pollOnce (listOps : ListOptions) (pod : Pod) : Go (loopctl * option error) :=
  _ <~ Sleep (splayTimeSeconds * Second);
  r <~ observe (EvList listOps) (client_List K listOps);
  match r with
  | inl err => ret (Continue, Some err)
  | inr items => ret (judgePods pod items)
  end.

(** The state a poll leaves behind, [r] being the answer to the list call
    and [w] the world after it. *)
Definition afterPoll (listOps : ListOptions) (s : State World)
    (r : error + list Pod) (w : World) : State World :=
  {| world := w;
     trace := trace s ++ [EvSleep (splayTimeSeconds * Second); EvList listOps r] |}.

(** The [for] loop: [splay] and the bound [T] are uint16, [fuel] bounds the
    number of iterations unrolled. *)
Fixpoint waitLoop (fuel : nat) (T : Z) (listOps : ListOptions) (pod : Pod)
    (splay : Z) (status : option error) : Go (option error) :=
  if splay <? T then
    match fuel with
    | O => fun s => OutOfFuel s
    | S fuel' =>
        '(ctl, status) <~ pollOnce listOps pod;
        match ctl with
        | Break => ret status
        | Continue =>
            waitLoop fuel' T listOps pod (uint16_add splay splayTimeSeconds) status
        end
    end
  else ret status.

Definition waitPodReadyState (fuel : nat) (instance : OneAgent) (pod : Pod)
  : Go (option error) :=
  let status : option error := None in
  let listOps := listOptionsFor instance in
  match Spec_WaitReadySeconds (OneAgent_Spec instance) with
  | None => panic "nil pointer dereference"
  | Some T => waitLoop fuel T listOps pod 0 status
  end.

(** [deletePods] deletes a list of pods. *)
Fixpoint deletePods (fuel : nat) (instance : OneAgent) (pods : list Pod)
  : Go (option error) :=
  match pods with
  | [] => ret None
  | pod :: pods =>
      _ <~ Info "deleting pod"
             [("pod", VStr (Pod_Name pod)); ("node", VStr (Pod_NodeName pod))];
      err <~ call (EvDelete pod) (client_Delete K pod);
      match err with
      | Some e => ret (Some e)
      | None =>
          _ <~ Info "waiting until pod is ready on node" [("node", VStr (Pod_NodeName pod))];
          err <~ waitPodReadyState fuel instance pod;
          match err with
          | Some e => ret (Some e)
          | None =>
              _ <~ Info "pod recreated successfully on node"
                     [("node", VStr (Pod_NodeName pod))];
              deletePods fuel instance pods
          end
      end
  end.

(** *** Version convergence *)

Definition reconcileVersion (fuel : nat) (instance : OneAgent) (dtc : DtClient)
  : Go (OneAgent * bool * option error) :=
  let updateCR := false in
  r <~ call EvGetVersion (GetVersionForLatest K dtc);
  match r with
  | inl err =>
      _ <~ emit (EvInfof "failed to get desired version: %s" err);
      ret (instance, false, None)
  | inr desired =>
      '(instance, updateCR) <~
        (if negb (String.eqb desired "")
            && negb (String.eqb (Status_Version (OneAgent_Status instance)) desired) then
           _ <~ Info "new version available"
                  [("actual", VStr (Status_Version (OneAgent_Status instance)));
                   ("desired", VStr desired)];
           ret (withStatus instance (withVersion (OneAgent_Status instance) desired), true)
         else ret (instance, updateCR));
      let listOps := listOptionsFor instance in
      r <~ observe (EvList listOps) (client_List K listOps);
      match r with
      | inl err =>
          _ <~ Error err "failed to list pods" [("listops", VListOptions listOps)];
          ret (instance, updateCR, Some err)
      | inr items =>
          '(podsToDelete, instances) <~
            call EvGetPodsToRestart (getPodsToRestart K items dtc instance);
          '(instance, updateCR) <~
            (if negb (bool_decide (instances = Status_Items (OneAgent_Status instance))) then
               _ <~ Info "oneagent pod instances changed" [];
               ret (withStatus instance (withItems (OneAgent_Status instance) instances), true)
             else ret (instance, updateCR));
          _ <~ Info "pods to delete" [("count", VInt (Z.of_nat (length podsToDelete)))];
          err <~ deletePods fuel instance podsToDelete;
          match err with
          | Some e =>
              _ <~ Error e "failed to update version" [];
              ret (instance, updateCR, Some e)
          | None => ret (instance, updateCR, None)
          end
      end
  end.

(** *** The tick *)

Definition noRequeue : Result := {| Requeue := false; RequeueAfter := 0 |}.
Definition requeueNow : Result := {| Requeue := true; RequeueAfter := 0 |}.
Definition requeueAfter (d : Duration) : Result := {| Requeue := false; RequeueAfter := d |}.

(** [Reconcile] up to and including the daemonset convergence (the source
    down to the test of [DisableAgentUpdate]): either the tick has ended
    with a result, or it goes on with the instance and the vendor client. *)
Definition reconcileSetup (request : NamespacedName)
  : Go ((Result * option error) + (OneAgent * DtClient)) :=
  _ <~ Info "reconciling oneagent" [];
  r <~ call (EvGet request) (client_Get K request);
  match r with
  | inl err =>
      if IsNotFound err then ret (inl (noRequeue, None))
      else ret (inl (noRequeue, Some err))
  | inr instance =>
      let instance := scheme_Default K instance in
      match validate K instance with
      | Some err => ret (inl (noRequeue, Some err))
      | None =>
          if String.eqb (Spec_Tokens (OneAgent_Spec instance)) "" then
            let instance :=
              withSpec instance (withTokens (OneAgent_Spec instance) (OneAgent_Name instance)) in
            _ <~ Info "updating custom resource" [("cause", VStr "defaults applied")];
            '(instance, err) <~ updateCR instance;
            match err with
            | Some e => ret (inl (noRequeue, Some e))
            | None => ret (inl (requeueNow, None))
            end
          else
            r <~ call EvBuildClient (dynatraceClientFunc K instance);
            match r with
            | inl err => ret (inl (noRequeue, Some err))
            | inr dtc =>
                istio <~
                  (if Spec_EnableIstio (OneAgent_Spec instance) then
                     '(upd, ok) <~ call EvIstio (reconcileIstio K instance dtc);
                     ret (ok && upd)
                   else ret false);
                if (istio : bool) then ret (inl (requeueNow, None))
                else
                  '(instance, updateCR', err) <~ reconcileRollout instance;
                  match err with
                  | Some e => ret (inl (noRequeue, Some e))
                  | None =>
                      if (updateCR' : bool) then
                        _ <~ Info "updating custom resource" [("cause", VStr "initial rollout")];
                        '(instance, err) <~ updateCR instance;
                        match err with
                        | Some e => ret (inl (noRequeue, Some e))
                        | None => ret (inl (requeueAfter (5 * Minute), None))
                        end
                      else ret (inr (instance, dtc))
                  end
            end
      end
  end.

(** [Reconcile] from the test of [DisableAgentUpdate] to the end. *)
Definition reconcileUpdate (fuel : nat) (instance : OneAgent) (dtc : DtClient)
  : Go (Result * option error) :=
  if Spec_DisableAgentUpdate (OneAgent_Spec instance) then
    _ <~ Info "automatic oneagent update is disabled" [];
    ret (noRequeue, None)
  else
    '(instance, updateCR', err) <~ reconcileVersion fuel instance dtc;
    match err with
    | Some e => ret (noRequeue, Some e)
    | None =>
        if (updateCR' : bool) then
          _ <~ Info "updating custom resource"
                 [("cause", VStr "version upgrade");
                  ("status", VStatus (OneAgent_Status instance))];
          '(instance, err) <~ updateCR instance;
          match err with
          | Some e => ret (noRequeue, Some e)
          | None => ret (requeueAfter (5 * Minute), None)
          end
        else ret (requeueAfter (30 * Minute), None)
    end.

Definition Reconcile (fuel : nat) (request : NamespacedName) : Go (Result * option error) :=
  r <~ reconcileSetup request;
  match r with
  | inl res => ret res
  | inr (instance, dtc) => reconcileUpdate fuel instance dtc
  end.

End Controller.

(** ** A simulated cluster

    One concrete set of collaborators, on which the definitions above can
    be run.  The answers of the API server to the list calls are scripted;
    once the script is used up a list call answers with the pods the
    cluster holds, and a successful delete removes the pod from those. *)

Module Sim.

Record Cluster := {
  c_instance : error + OneAgent;
  c_daemonset : error + DaemonSet;
  c_update_err : option error;
  c_status_err : option error;
  c_delete_err : option error;
  c_lists : list (error + list Pod);
  c_pods : list Pod;
  c_version : error + string;
  c_now : Time
}.

Definition setLists (c : Cluster) (ls : list (error + list Pod)) : Cluster :=
  {| c_instance := c_instance c; c_daemonset := c_daemonset c;
     c_update_err := c_update_err c; c_status_err := c_status_err c;
     c_delete_err := c_delete_err c; c_lists := ls; c_pods := c_pods c;
     c_version := c_version c; c_now := c_now c |}.

Definition setPods (c : Cluster) (ps : list Pod) : Cluster :=
  {| c_instance := c_instance c; c_daemonset := c_daemonset c;
     c_update_err := c_update_err c; c_status_err := c_status_err c;
     c_delete_err := c_delete_err c; c_lists := c_lists c; c_pods := ps;
     c_version := c_version c; c_now := c_now c |}.

Definition setDaemonSet (c : Cluster) (ds : DaemonSet) : Cluster :=
  {| c_instance := c_instance c; c_daemonset := inr ds;
     c_update_err := c_update_err c; c_status_err := c_status_err c;
     c_delete_err := c_delete_err c; c_lists := c_lists c; c_pods := c_pods c;
     c_version := c_version c; c_now := c_now c |}.

Definition setUpdateErr (c : Cluster) (e : option error) : Cluster :=
  {| c_instance := c_instance c; c_daemonset := c_daemonset c;
     c_update_err := e; c_status_err := c_status_err c;
     c_delete_err := c_delete_err c; c_lists := c_lists c; c_pods := c_pods c;
     c_version := c_version c; c_now := c_now c |}.

Definition setStatusErr (c : Cluster) (e : option error) : Cluster :=
  {| c_instance := c_instance c; c_daemonset := c_daemonset c;
     c_update_err := c_update_err c; c_status_err := e;
     c_delete_err := c_delete_err c; c_lists := c_lists c; c_pods := c_pods c;
     c_version := c_version c; c_now := c_now c |}.

Definition setDeleteErr (c : Cluster) (e : option error) : Cluster :=
  {| c_instance := c_instance c; c_daemonset := c_daemonset c;
     c_update_err := c_update_err c; c_status_err := c_status_err c;
     c_delete_err := e; c_lists := c_lists c; c_pods := c_pods c;
     c_version := c_version c; c_now := c_now c |}.

Definition setVersion (c : Cluster) (v : error + string) : Cluster :=
  {| c_instance := c_instance c; c_daemonset := c_daemonset c;
     c_update_err := c_update_err c; c_status_err := c_status_err c;
     c_delete_err := c_delete_err c; c_lists := c_lists c; c_pods := c_pods c;
     c_version := v; c_now := c_now c |}.

Definition listPods (c : Cluster) : (error + list Pod) * Cluster :=
  match c_lists c with
  | r :: ls => (r, setLists c ls)
  | [] => (inr (c_pods c), c)
  end.

Definition deletePod (pod : Pod) (c : Cluster) : option error * Cluster :=
  match c_delete_err c with
  | Some e => (Some e, c)
  | None =>
      (None, setPods c (filter (fun p => negb (String.eqb (Pod_Name p) (Pod_Name pod)))
                          (c_pods c)))
  end.

Definition isReady (p : Pod) : bool :=
  existsb (fun c => String.eqb (Condition_Type c) "Ready"
                    && String.eqb (Condition_Status c) "True")
    (Pod_Conditions p).

Definition applyDefaults (instance : OneAgent) : OneAgent :=
  match Spec_WaitReadySeconds (OneAgent_Spec instance) with
  | Some _ => instance
  | None =>
      let sp := OneAgent_Spec instance in
      {| OneAgent_Name := OneAgent_Name instance;
         OneAgent_Namespace := OneAgent_Namespace instance;
         OneAgent_Spec :=
           {| Spec_ApiUrl := Spec_ApiUrl sp;
              Spec_SkipCertCheck := Spec_SkipCertCheck sp;
              Spec_NodeSelector := Spec_NodeSelector sp;
              Spec_Tolerations := Spec_Tolerations sp;
              Spec_WaitReadySeconds := Some 300;
              Spec_Image := Spec_Image sp;
              Spec_Tokens := Spec_Tokens sp;
              Spec_Args := Spec_Args sp;
              Spec_Env := Spec_Env sp;
              Spec_Resources := Spec_Resources sp;
              Spec_PriorityClassName := Spec_PriorityClassName sp;
              Spec_DisableAgentUpdate := Spec_DisableAgentUpdate sp;
              Spec_EnableIstio := Spec_EnableIstio sp |};
         OneAgent_Status := OneAgent_Status instance |}
  end.

Definition own (instance : OneAgent) (ds : DaemonSet) : error + DaemonSet :=
  inr {| DaemonSet_Name := DaemonSet_Name ds;
         DaemonSet_Namespace := DaemonSet_Namespace ds;
         DaemonSet_Labels := DaemonSet_Labels ds;
         DaemonSet_Owner := Some ("OneAgent", OneAgent_Name instance);
         DaemonSet_Spec := DaemonSet_Spec ds |}.

Definition K : Collaborators Cluster unit :=
  {| client_Get := fun _ c => (c_instance c, c);
     client_GetDaemonSet := fun _ c => (c_daemonset c, c);
     client_Create := fun ds c => (None, setDaemonSet c ds);
     client_UpdateDaemonSet := fun ds c => (None, setDaemonSet c ds);
     client_Update := fun obj c => ((obj, c_update_err c), c);
     client_StatusUpdate := fun obj c => ((obj, c_status_err c), c);
     client_Delete := deletePod;
     client_List := fun _ c => listPods c;
     metav1_Now := fun c => (c_now c, c);
     time_Sleep := fun _ c => c;
     scheme_Default := applyDefaults;
     validate := fun _ => None;
     dynatraceClientFunc := fun _ c => (inr tt, c);
     reconcileIstio := fun _ _ c => ((false, false), c);
     SetControllerReference := own;
     hasSpecChanged := fun _ _ => false;
     buildLabels := fun name => [("dynatrace", "oneagent"); ("oneagent", name)];
     GetVersionForLatest := fun _ c => (c_version c, c);
     getPodsToRestart :=
       fun items _ instance c => ((items, Status_Items (OneAgent_Status instance)), c);
     getPodReadyState := isReady |}.

Definition spec (T : option Z) (env : list EnvVar) (disable : bool) : OneAgentSpec :=
  {| Spec_ApiUrl := "https://example.live.dynatrace.com/api";
     Spec_SkipCertCheck := false;
     Spec_NodeSelector := [];
     Spec_Tolerations := [];
     Spec_WaitReadySeconds := T;
     Spec_Image := "docker.io/dynatrace/oneagent";
     Spec_Tokens := "oneagent";
     Spec_Args := [];
     Spec_Env := env;
     Spec_Resources := {| Resources_Limits := []; Resources_Requests := [] |};
     Spec_PriorityClassName := "";
     Spec_DisableAgentUpdate := disable;
     Spec_EnableIstio := false |}.

Definition status : OneAgentStatus :=
  {| Status_Version := "1.169.0";
     Status_Items := None;
     Status_UpdatedTimestamp := UnixNano 1500000000 |}.

Definition oneagent (T : option Z) (env : list EnvVar) (disable : bool) : OneAgent :=
  {| OneAgent_Name := "oneagent";
     OneAgent_Namespace := "dynatrace";
     OneAgent_Spec := spec T env disable;
     OneAgent_Status := status |}.

Definition tokenEnv : list EnvVar := [installerTokenEnv "oneagent"].

Definition pod (name node phase : string) (ready : bool) : Pod :=
  {| Pod_Name := name;
     Pod_NodeName := node;
     Pod_Phase := phase;
     Pod_Conditions :=
       [ {| Condition_Type := "Ready";
            Condition_Status := if ready then "True" else "False" |} ] |}.

Definition cluster (instance : OneAgent) (pods : list Pod) : Cluster :=
  {| c_instance := inr instance;
     c_daemonset := inl (NotFound "daemonsets.apps");
     c_update_err := None;
     c_status_err := None;
     c_delete_err := None;
     c_lists := [];
     c_pods := pods;
     c_version := inr "1.169.0";
     c_now := UnixNano 1600000000 |}.

Definition start (c : Cluster) : State Cluster := {| world := c; trace := [] |}.

Definition request : NamespacedName :=
  {| NN_Namespace := "dynatrace"; NN_Name := "oneagent" |}.

(** Two agents, one per node. *)
Definition podA : Pod := pod "oneagent-a" "node-a" "Running" true.
Definition podB : Pod := pod "oneagent-b" "node-b" "Running" true.

(** The instance with a readiness timeout of [T] seconds, the installer
    token already in its env list, automatic update enabled. *)
Definition agent (T : Z) : OneAgent := oneagent (Some T) tokenEnv false.

(** The same with automatic update disabled. *)
Definition agentNoUpdate : OneAgent := oneagent (Some 300) tokenEnv true.

(** The same with an empty env list. *)
Definition agentNoEnv : OneAgent := oneagent (Some 300) [] false.

(** A replacement for [podA] on its node, ready or not. *)
Definition replacementA (ready : bool) : Pod := pod "oneagent-c" "node-a" "Running" ready.
Definition strayA : Pod := pod "oneagent-d" "node-a" "Running" true.
Definition replacementB : Pod := pod "oneagent-e" "node-b" "Running" true.

(** The spec-update write is refused. *)
Definition clusterUpdateFails : Cluster :=
  setUpdateErr (cluster (agent 300) [podA; podB]) (Some (Failure "conflict")).

(** The status-only write is refused. *)
Definition clusterStatusFails : Cluster :=
  setStatusErr (cluster (agent 300) [podA; podB]) (Some (Failure "conflict")).

(** The instance has automatic update disabled. *)
Definition clusterNoUpdate : Cluster := cluster agentNoUpdate [podA; podB].

(** The pod to delete is already gone. *)
Definition clusterPodGone : Cluster :=
  setDeleteErr (cluster (agent 300) [podA; podB]) (Some (NotFound "pods")).

(** The first poll sees two running pods on node-a, the second one ready
    replacement; the third sees the replacement on node-b. *)
Definition clusterTwoThenOne : Cluster :=
  setLists (cluster (agent 20) [podA; podB])
    [inr [replacementA true; strayA]; inr [replacementA true]; inr [replacementB]].

(** The replacement on node-a is running and not ready. *)
Definition clusterNotReady : Cluster :=
  setLists (cluster (agent 10) [podA]) [inr [replacementA false]].

(** No pod is ever recreated. *)
Definition clusterNeverRecreated : Cluster := cluster (agent 65535) [].

(** The vendor API does not answer. *)
Definition clusterVendorDown : Cluster :=
  setVersion (cluster (agent 300) [podA; podB]) (inl (Failure "503 Service Unavailable")).

End Sim.

(** ** Observations on traces *)

(** The pods the delete calls of a trace were made for, in order. *)
Fixpoint deletions (evs : list Event) : list Pod :=
  match evs with
  | [] => []
  | EvDelete p :: evs => p :: deletions evs
  | _ :: evs => deletions evs
  end.

(** The number of polls (list calls) of a trace. *)
Fixpoint polls (evs : list Event) : nat :=
  match evs with
  | [] => 0
  | EvList _ _ :: evs => S (polls evs)
  | _ :: evs => polls evs
  end.

(** The answers the list calls of a trace got, in order. *)
Fixpoint listAnswers (evs : list Event) : list (error + list Pod) :=
  match evs with
  | [] => []
  | EvList _ r :: evs => r :: listAnswers evs
  | _ :: evs => listAnswers evs
  end.

(** The number of sleeps of a trace. *)
Fixpoint sleeps (evs : list Event) : nat :=
  match evs with
  | [] => 0
  | EvSleep _ :: evs => S (sleeps evs)
  | _ :: evs => sleeps evs
  end.

Definition isConfirmation (ev : Event) : bool :=
  match ev with
  | EvInfo msg _ => String.eqb msg "pod recreated successfully on node"
  | _ => false
  end.

(** The number of pods a trace reports as recreated. *)
Fixpoint confirmations (evs : list Event) : nat :=
  match evs with
  | [] => 0
  | ev :: evs => (if isConfirmation ev then 1 else 0) + confirmations evs
  end.


(** The replacement candidates in the words of the specification: the pods
    on the node of the deleted pod, in the running phase, other than the
    deleted pod itself. *)
Definition isReplacementCandidate (pod p : Pod) : Prop :=
  Pod_NodeName p = Pod_NodeName pod /\ Pod_Phase p = "Running" /\ Pod_Name p <> Pod_Name pod.

Global Instance isReplacementCandidate_dec (pod p : Pod)
  : Decision (isReplacementCandidate pod p).
Proof. unfold isReplacementCandidate. apply _. Defined.

Definition candidatePods (pod : Pod) (items : list Pod) : list Pod :=
  filter (isReplacementCandidate pod) items.

(** ** The vendor client built from the credential secret *)

(** corev1.Secret: its data, a Go map ([None] is the nil map of
    [corev1.Secret{}]). *)
Record Secret := {
  Secret_Data : option (gmap string string)
}.

Definition emptySecret : Secret := {| Secret_Data := None |}.

(** What [getSecret] and [buildDynatraceClient] call and do not define: the
    client's Get on a secret, which fills the object it is given and
    returns an error, the helpers of oneagent_utils.go and the constructor
    of the vendor client. *)
Record SecretCollaborators (World DtClient : Type) := {
  client_GetSecret : NamespacedName -> World -> (Secret * option error) * World;
  verifySecret : Secret -> option error;
  getToken : Secret -> string -> string * option error;
  dtclient_NewClient : string -> string -> string -> bool -> error + DtClient
}.

Arguments client_GetSecret {World DtClient}.
Arguments verifySecret {World DtClient}.
Arguments getToken {World DtClient}.
Arguments dtclient_NewClient {World DtClient}.

Section VendorClient.

Context {World DtClient : Type}.
Variable B : SecretCollaborators World DtClient.

(** [getSecret] retrieves a secret containing PaaS and API tokens. *)
Definition getSecret (name namespace : string) (w : World)
  : (Secret * option error) * World :=
  let key := {| NN_Namespace := namespace; NN_Name := name |} in
  let '((secret, err), w') := client_GetSecret B key w in
  match err with
  | Some e =>
      if IsNotFound e then ((emptySecret, Some e), w')
      else ((secret, None), w')
  | None => ((secret, None), w')
  end.

Definition buildDynatraceClient (instance : OneAgent) (w : World)
  : (error + DtClient) * World :=
  let '((secret, err), w') :=
    getSecret (Spec_Tokens (OneAgent_Spec instance)) (OneAgent_Namespace instance) w in
  match err with
  | Some e => (inl e, w')
  | None =>
      match verifySecret B secret with
      | Some e => (inl e, w')
      | None =>
          let certificateValidation := Spec_SkipCertCheck (OneAgent_Spec instance) in
          let '(apiToken, _) := getToken B secret dynatraceApiToken in
          let '(paasToken, _) := getToken B secret dynatracePaasToken in
          (dtclient_NewClient B (Spec_ApiUrl (OneAgent_Spec instance)) apiToken paasToken
             certificateValidation, w')
      end
  end.

(** [newReconciler]: the reconciler whose vendor client comes from
    [buildDynatraceClient]. *)
Definition newReconciler (K : Collaborators World DtClient) : Collaborators World DtClient :=
  {| client_Get := client_Get K;
     client_GetDaemonSet := client_GetDaemonSet K;
     client_Create := client_Create K;
     client_UpdateDaemonSet := client_UpdateDaemonSet K;
     client_Update := client_Update K;
     client_StatusUpdate := client_StatusUpdate K;
     client_Delete := client_Delete K;
     client_List := client_List K;
     metav1_Now := metav1_Now K;
     time_Sleep := time_Sleep K;
     scheme_Default := scheme_Default K;
     validate := validate K;
     dynatraceClientFunc := buildDynatraceClient;
     reconcileIstio := reconcileIstio K;
     SetControllerReference := SetControllerReference K;
     hasSpecChanged := hasSpecChanged K;
     buildLabels := buildLabels K;
     GetVersionForLatest := GetVersionForLatest K;
     getPodsToRestart := getPodsToRestart K;
     getPodReadyState := getPodReadyState K |}.

End VendorClient.

(** ** Further observations on traces *)

Definition isStoreWrite (ev : Event) : bool :=
  match ev with
  | EvCreate _ | EvUpdateDaemonSet _ | EvUpdate _ | EvStatusUpdate _ | EvDelete _ => true
  | _ => false
  end.

(** The calls of a trace that change an object of the store, in order. *)
Fixpoint storeWrites (evs : list Event) : list Event :=
  match evs with
  | [] => []
  | ev :: evs => if isStoreWrite ev then ev :: storeWrites evs else storeWrites evs
  end.

(** Whether a pod in the running phase is on the node. *)
Definition hasRunningAgent (node : string) (pods : list Pod) : bool :=
  existsb (fun p => String.eqb (Pod_NodeName p) node && String.eqb (Pod_Phase p) PodRunning)
    pods.

(** The writes of a trace to the custom resource, in order. *)
Fixpoint instanceWrites (evs : list Event) : list Event :=
  match evs with
  | [] => []
  | EvUpdate obj :: evs => EvUpdate obj :: instanceWrites evs
  | EvStatusUpdate obj :: evs => EvStatusUpdate obj :: instanceWrites evs
  | _ :: evs => instanceWrites evs
  end.

(** The trace of a run of polls with the given answers: a sleep of the
    splay time before each list call. *)
Fixpoint pollEvents (listOps : ListOptions) (answers : list (error + list Pod))
  : list Event :=
  match answers with
  | [] => []
  | r :: answers =>
      EvSleep (splayTimeSeconds * Second) :: EvList listOps r :: pollEvents listOps answers
  end.

(** The status a poll leaves, read off the answer to its list call. *)
Definition statusAfterPoll {World DtClient} (K : Collaborators World DtClient) (pod : Pod)
    (r : error + list Pod) : option error :=
  match r with
  | inl err => Some err
  | inr items => snd (judgePods K pod items)
  end.

(** The instance as [reconcileRollout] leaves it: the installer token is put
    in front of the env list unless the list starts with it. *)
Definition withInstallerToken (instance : OneAgent) : OneAgent :=
  match Spec_Env (OneAgent_Spec instance) with
  | [] => instance
  | env0 :: _ =>
      if String.eqb (EnvVar_Name env0) "ONEAGENT_INSTALLER_TOKEN" then instance
      else
        withSpec instance
          (withEnv (OneAgent_Spec instance)
             (installerTokenEnv (Spec_Tokens (OneAgent_Spec instance))
              :: Spec_Env (OneAgent_Spec instance)))
  end.

(** ** Further simulated collaborators *)

Module Scenario.

(** The simulated reconciler with another validation function. *)
Definition withValidate (v : OneAgent -> option error) : Collaborators Sim.Cluster unit :=
  {| client_Get := client_Get Sim.K;
     client_GetDaemonSet := client_GetDaemonSet Sim.K;
     client_Create := client_Create Sim.K;
     client_UpdateDaemonSet := client_UpdateDaemonSet Sim.K;
     client_Update := client_Update Sim.K;
     client_StatusUpdate := client_StatusUpdate Sim.K;
     client_Delete := client_Delete Sim.K;
     client_List := client_List Sim.K;
     metav1_Now := metav1_Now Sim.K;
     time_Sleep := time_Sleep Sim.K;
     scheme_Default := scheme_Default Sim.K;
     validate := v;
     dynatraceClientFunc := dynatraceClientFunc Sim.K;
     reconcileIstio := reconcileIstio Sim.K;
     SetControllerReference := SetControllerReference Sim.K;
     hasSpecChanged := hasSpecChanged Sim.K;
     buildLabels := buildLabels Sim.K;
     GetVersionForLatest := GetVersionForLatest Sim.K;
     getPodsToRestart := getPodsToRestart Sim.K;
     getPodReadyState := getPodReadyState Sim.K |}.

Definition rejectAll (instance : OneAgent) : option error :=
  Some (Failure ".spec.apiUrl is missing").

Definition tokens : Secret :=
  {| Secret_Data := Some {[ "apiToken" := "api-42"; "paasToken" := "paas-42" ]} |}.

Definition lookupToken (secret : Secret) (key : string) : string * option error :=
  match Secret_Data secret with
  | Some data =>
      match data !! key with
      | Some v => (v, None)
      | None => ("", Some (Failure "missing token"))
      end
  | None => ("", Some (Failure "missing token"))
  end.

Definition checkSecret (secret : Secret) : option error :=
  match snd (lookupToken secret "apiToken"), snd (lookupToken secret "paasToken") with
  | None, None => None
  | Some e, _ => Some e
  | _, Some e => Some e
  end.

(** The secret collaborators: the Get on the secret answers with [secret]
    and [err]. *)
Definition secrets (secret : Secret) (err : option error)
  : SecretCollaborators Sim.Cluster unit :=
  {| client_GetSecret := fun _ c => ((secret, err), c);
     verifySecret := checkSecret;
     getToken := lookupToken;
     dtclient_NewClient :=
       fun url _ _ _ => if String.eqb url "" then inl (Failure "url is empty") else inr tt |}.

(** An instance whose env list does not start with the installer token. *)
Definition proxyEnv : EnvVar :=
  {| EnvVar_Name := "https_proxy"; EnvVar_Value := "proxy:3128"; EnvVar_ValueFrom := None |}.

Definition agentWithProxy : OneAgent := Sim.oneagent (Some 300) [proxyEnv] false.

(** An instance without the name of its secret. *)
Definition agentNoTokens : OneAgent :=
  withSpec (Sim.agent 300) (withTokens (OneAgent_Spec (Sim.agent 300)) "").

(** An instance whose readiness timeout is not set. *)
Definition agentNoTimeout : OneAgent := Sim.oneagent None Sim.tokenEnv false.

(** The daemonset exists already. *)
Definition clusterConverged (instance : OneAgent) (pods : list Pod) : Sim.Cluster :=
  Sim.setDaemonSet (Sim.cluster instance pods) (newDaemonSetForCR Sim.K instance).

(** The instance is gone, or cannot be read. *)
Definition clusterWithout (e : error) : Sim.Cluster :=
  {| Sim.c_instance := inl e;
     Sim.c_daemonset := inl (NotFound "daemonsets.apps");
     Sim.c_update_err := None;
     Sim.c_status_err := None;
     Sim.c_delete_err := None;
     Sim.c_lists := [];
     Sim.c_pods := [];
     Sim.c_version := inr "1.169.0";
     Sim.c_now := UnixNano 1600000000 |}.

(** The vendor API announces a new version; the one agent pod, once
    deleted, is not recreated. *)
Definition clusterNewVersion : Sim.Cluster :=
  Sim.setVersion (Sim.cluster (Sim.agent 10) [Sim.podA]) (inr "1.170.0").

(** A readiness timeout of zero seconds, an agent on each of two nodes. *)
Definition clusterNoWait : Sim.Cluster := Sim.cluster (Sim.agent 0) [Sim.podA; Sim.podB].

End Scenario.

(** ** Facts *)

Section ControllerFacts.

Context {World DtClient : Type}.
Variable K : Collaborators World DtClient.

Ltac run :=
  repeat (unfold bind, call, observe, emit, ret, panic, Info, Error, Sleep; simpl).

Lemma app_two {A} (l : list A) (x y : A) : (l ++ [x]) ++ [y] = l ++ [x; y].
Proof. now rewrite <- app_assoc. Qed.

Lemma updateCR_run (instance : OneAgent) (s : State World) :
  let now := fst (metav1_Now K (world s)) in
  let saved := withUpdatedTimestamp (OneAgent_Status instance) now in
  let sent := withStatus instance emptyStatus in
  let first := client_Update K sent (snd (metav1_Now K (world s))) in
  let sent' := withStatus (fst (fst first)) saved in
  let second := client_StatusUpdate K sent' (snd first) in
  updateCR K instance s =
    match snd (fst first) with
    | Some e =>
        Ret (fst (fst first), Some e)
          {| world := snd first; trace := trace s ++ [EvNow; EvUpdate sent] |}
    | None =>
        Ret (fst second)
          {| world := snd second;
             trace := trace s ++ [EvNow; EvUpdate sent; EvStatusUpdate sent'] |}
    end.
Proof.
  unfold updateCR. run.
  destruct (metav1_Now K (world s)) as [now w1]; simpl.
  destruct (client_Update K _ w1) as [[o1 r1] w2] eqn:E1; simpl.
  destruct r1 as [e|]; simpl.
  - now rewrite app_two.
  - destruct (client_StatusUpdate K _ w2) as [[o2 r2] w3]; simpl.
    now rewrite !app_two, <- app_assoc.
Qed.

(** C1 (as amended).  Provided a write that the client refuses hands the
    object back as it was given ([Hupdate], [Hstatus]): [updateCR] always
    returns.  When the spec-update write fails its error is returned at once
    and the instance is left with the empty placeholder as its status; when
    that write succeeds and the status-only write fails, its error is
    returned and the instance holds the saved status, stamped with the new
    time. *)
Theorem updateCR_status_after_failure
    (Hupdate : forall obj w obj' e w',
        client_Update K obj w = ((obj', Some e), w') -> obj' = obj)
    (Hstatus : forall obj w obj' e w',
        client_StatusUpdate K obj w = ((obj', Some e), w') -> obj' = obj)
    (instance : OneAgent) (s : State World) :
  let now := fst (metav1_Now K (world s)) in
  let saved := withUpdatedTimestamp (OneAgent_Status instance) now in
  let first := client_Update K (withStatus instance emptyStatus) (snd (metav1_Now K (world s))) in
  let second := client_StatusUpdate K (withStatus (fst (fst first)) saved) (snd first) in
  exists instance' r s',
    updateCR K instance s = Ret (instance', r) s' /\
    match snd (fst first) with
    | Some e => r = Some e /\ OneAgent_Status instance' = emptyStatus
    | None =>
        r = snd (fst second) /\
        (forall e, r = Some e -> OneAgent_Status instance' = saved)
    end.
Proof.
  intros now saved first second.
  rewrite updateCR_run. fold now saved first second.
  destruct first as [[o1 r1] w2] eqn:E1; simpl in *.
  destruct r1 as [e|].
  - eexists _, _, _. split; [reflexivity|]. split; [reflexivity|].
    apply Hupdate in E1. now subst o1.
  - destruct second as [[o2 r2] w3] eqn:E2; simpl.
    eexists _, _, _. split; [reflexivity|]. split; [reflexivity|].
    intros e ->. apply Hstatus in E2. now subst o2.
Qed.

Lemma reconcileUpdate_disabled (fuel : nat) (instance : OneAgent) (dtc : DtClient)
    (s : State World) :
  Spec_DisableAgentUpdate (OneAgent_Spec instance) = true ->
  reconcileUpdate K fuel instance dtc s =
    Ret (noRequeue, None)
      {| world := world s;
         trace := trace s ++ [EvInfo "automatic oneagent update is disabled" []] |}.
Proof. intros H. unfold reconcileUpdate. now rewrite H. Qed.

(** C2 (as amended).  A tick that reaches the test of the update flag with
    the flag set ends at once with no error and with the empty result: no
    requeue is asked for, neither at once nor after a delay.  Nothing but the
    log line is done after the daemonset convergence, so no version
    convergence takes place. *)
Theorem Reconcile_update_disabled (fuel : nat) (request : NamespacedName)
    (s : State World) (instance : OneAgent) (dtc : DtClient) (s1 : State World) :
  reconcileSetup K request s = Ret (inr (instance, dtc)) s1 ->
  Spec_DisableAgentUpdate (OneAgent_Spec instance) = true ->
  Reconcile K fuel request s =
    Ret ({| Requeue := false; RequeueAfter := 0 |}, None)
      {| world := world s1;
         trace := trace s1 ++ [EvInfo "automatic oneagent update is disabled" []] |}.
Proof.
  intros Hsetup Hflag. unfold Reconcile, bind. rewrite Hsetup.
  now apply reconcileUpdate_disabled.
Qed.

(** C3 (as amended).  Whatever error the delete call reports, not-found
    included, [deletePods] returns it at once: the wait for a replacement is
    not entered and no further pod of the list is touched. *)
Theorem deletePods_delete_error (fuel : nat) (instance : OneAgent) (pod : Pod)
    (pods : list Pod) (s : State World) (e : error) (w' : World) :
  client_Delete K pod (world s) = (Some e, w') ->
  deletePods K fuel instance (pod :: pods) s =
    Ret (Some e)
      {| world := w';
         trace := trace s ++
           [EvInfo "deleting pod"
              [("pod", VStr (Pod_Name pod)); ("node", VStr (Pod_NodeName pod))];
            EvDelete pod] |}.
Proof.
  intros H. run. rewrite H. simpl. now rewrite app_two.
Qed.

Lemma head_None_nil {A} (l : list A) : l !! 0%nat = None <-> l = [].
Proof. destruct l; simpl; split; congruence. Qed.

Lemma reconcileRollout_returns (instance : OneAgent) (s : State World) (env0 : EnvVar) :
  Spec_Env (OneAgent_Spec instance) !! 0%nat = Some env0 ->
  exists r s', reconcileRollout K instance s = Ret r s'.
Proof.
  intros H. unfold reconcileRollout. rewrite H.
  destruct (negb _); simpl;
    (destruct (SetControllerReference K _ _) as [e|ds]; [eexists _, _; reflexivity|]);
    run;
    (destruct (client_GetDaemonSet K _ _) as [[e|ds'] w]; simpl;
     [ destruct (IsNotFound e); simpl;
       [ destruct (client_Create K _ _) as [[e'|] w']; simpl | ]
     | destruct (hasSpecChanged K _ _); simpl;
       [ destruct (client_UpdateDaemonSet K _ _) as [[e'|] w']; simpl | ] ]);
    eexists _, _; reflexivity.
Qed.

(** C10.  [reconcileRollout] reads [instance.Spec.Env[0]] before anything
    else: it panics with an index out of range, having done nothing, exactly
    when the env list is empty, and it returns exactly when the list is not
    empty. *)
Theorem reconcileRollout_total_iff_env_nonempty (instance : OneAgent) (s : State World) :
  (reconcileRollout K instance s = Panic "index out of range" s
   <-> Spec_Env (OneAgent_Spec instance) = [])
  /\ ((exists r s', reconcileRollout K instance s = Ret r s')
      <-> Spec_Env (OneAgent_Spec instance) <> []).
Proof.
  destruct (Spec_Env (OneAgent_Spec instance) !! 0%nat) as [env0|] eqn:E.
  - destruct (reconcileRollout_returns instance s env0 E) as (r & s' & Hr).
    assert (Hne : Spec_Env (OneAgent_Spec instance) <> []).
    { intros Hnil. rewrite Hnil in E. discriminate. }
    split; split; intros H; try congruence.
    + eauto.
  - assert (Hnil : Spec_Env (OneAgent_Spec instance) = []) by now apply head_None_nil.
    assert (Hp : reconcileRollout K instance s = Panic "index out of range" s).
    { unfold reconcileRollout. now rewrite E. }
    split; split; intros H; try congruence.
    destruct H as (r & s' & Hr). congruence.
Qed.

(** *** The filter and the verdict of a poll *)

Lemma skipPod_spec (pod p : Pod) :
  skipPod pod p = false <-> isReplacementCandidate pod p.
Proof.
  unfold skipPod, isReplacementCandidate, PodRunning.
  destruct (String.eqb_spec (Pod_NodeName p) (Pod_NodeName pod));
    destruct (String.eqb_spec (Pod_Phase p) "Running");
    destruct (String.eqb_spec (Pod_Name p) (Pod_Name pod));
    simpl; intuition congruence.
Qed.

Lemma foundPods_acc (pod : Pod) (items acc : list Pod) :
  fold_left (fun found p => if skipPod pod p then found else found ++ [p]) items acc
  = acc ++ candidatePods pod items.
Proof.
  revert acc. induction items as [|p items IH]; intros acc; simpl.
  - unfold candidatePods. now rewrite filter_nil, app_nil_r.
  - rewrite IH. unfold candidatePods.
    destruct (skipPod pod p) eqn:E.
    + rewrite filter_cons_False; [reflexivity|].
      intros H. apply skipPod_spec in H. congruence.
    + rewrite filter_cons_True by now apply skipPod_spec.
      now rewrite <- app_assoc.
Qed.

Lemma foundPods_candidatePods (pod : Pod) (items : list Pod) :
  foundPods pod items = candidatePods pod items.
Proof. unfold foundPods. now rewrite foundPods_acc. Qed.

Lemma judgePods_Break (pod : Pod) (items : list Pod) :
  fst (judgePods K pod items) = Break
  <-> exists p, candidatePods pod items = [p] /\ getPodReadyState K p = true.
Proof.
  unfold judgePods. rewrite foundPods_candidatePods.
  destruct (candidatePods pod items) as [|p [|q l]]; simpl.
  - split; [discriminate|]. intros (p & H & _). discriminate.
  - destruct (getPodReadyState K p) eqn:E; simpl.
    + split; eauto.
    + split; [discriminate|]. intros (p' & H & H'). congruence.
  - split; [discriminate|]. intros (p' & H & _). discriminate.
Qed.

Lemma judgePods_Break_status (pod : Pod) (items : list Pod) :
  fst (judgePods K pod items) = Break -> snd (judgePods K pod items) = None.
Proof.
  unfold judgePods.
  destruct (foundPods pod items) as [|p [|q l]]; simpl; try discriminate.
  destruct (getPodReadyState K p); simpl; [reflexivity|discriminate].
Qed.

Lemma judgePods_too_many (pod : Pod) (items : list Pod) :
  (1 < length (foundPods pod items))%nat ->
  judgePods K pod items =
    (Continue,
     Some (Errorf "too many pods found: expected=1 actual=%d"
             [VInt (Z.of_nat (length (foundPods pod items)))])).
Proof.
  unfold judgePods.
  destruct (foundPods pod items) as [|p [|q l]]; simpl; intros H; try lia.
  reflexivity.
Qed.

Lemma pollOnce_run (listOps : ListOptions) (pod : Pod) (s : State World) :
  let r := client_List K listOps (time_Sleep K (splayTimeSeconds * Second) (world s)) in
  pollOnce K listOps pod s =
    Ret (match fst r with
         | inl err => (Continue, Some err)
         | inr items => judgePods K pod items
         end) (afterPoll listOps s (fst r) (snd r)).
Proof.
  unfold pollOnce, afterPoll. run.
  destruct (client_List K listOps _) as [[e|items] w]; simpl; now rewrite app_two.
Qed.

Lemma waitLoop_step (fuel : nat) (T : Z) (listOps : ListOptions) (pod : Pod)
    (splay : Z) (status : option error) (s : State World) :
  splay < T ->
  let r := client_List K listOps (time_Sleep K (splayTimeSeconds * Second) (world s)) in
  let verdict := match fst r with
                 | inl err => (Continue, Some err)
                 | inr items => judgePods K pod items
                 end in
  waitLoop K (S fuel) T listOps pod splay status s =
    match fst verdict with
    | Break => Ret (snd verdict) (afterPoll listOps s (fst r) (snd r))
    | Continue =>
        waitLoop K fuel T listOps pod (uint16_add splay splayTimeSeconds) (snd verdict)
          (afterPoll listOps s (fst r) (snd r))
    end.
Proof.
  intros Hlt r verdict.
  change (waitLoop K (S fuel) T listOps pod splay status s)
    with ((if splay <? T then
             bind (pollOnce K listOps pod)
               (fun x => match x with
                         | (Break, status) => ret status
                         | (Continue, status) =>
                             waitLoop K fuel T listOps pod
                               (uint16_add splay splayTimeSeconds) status
                         end)
           else ret status) s).
  apply Z.ltb_lt in Hlt. rewrite Hlt.
  unfold bind. rewrite pollOnce_run. fold r verdict.
  now destruct verdict as [[|] st].
Qed.

Lemma waitLoop_done (fuel : nat) (T : Z) (listOps : ListOptions) (pod : Pod)
    (splay : Z) (status : option error) (s : State World) :
  T <= splay ->
  waitLoop K fuel T listOps pod splay status s = Ret status s.
Proof.
  intros Hge. apply Z.ltb_ge in Hge.
  destruct fuel; simpl; now rewrite Hge.
Qed.

(** C8.  The pods a poll keeps are exactly the pods of the list that are on
    the node of the deleted pod, are in phase "Running" and do not bear the
    name of the deleted pod; the poll leaves the loop if and only if the
    list call succeeded, exactly one pod was kept and that pod satisfies the
    readiness predicate, and leaving the loop ends the wait with a nil
    error. *)
Theorem poll_candidates_and_success (listOps : ListOptions) (pod : Pod) (s : State World) :
  let r := client_List K listOps (time_Sleep K (splayTimeSeconds * Second) (world s)) in
  (forall items, foundPods pod items = candidatePods pod items)
  /\ exists ctl status s',
       pollOnce K listOps pod s = Ret (ctl, status) s'
       /\ (ctl = Break
           <-> exists items p,
                 fst r = inr items /\ candidatePods pod items = [p]
                 /\ getPodReadyState K p = true)
       /\ (forall fuel T splay status0,
             splay < T ->
             waitLoop K (S fuel) T listOps pod splay status0 s =
               match ctl with
               | Break => Ret None s'
               | Continue =>
                   waitLoop K fuel T listOps pod (uint16_add splay splayTimeSeconds)
                     status s'
               end).
Proof.
  intros r. split; [apply foundPods_candidatePods|].
  pose proof (pollOnce_run listOps pod s) as Hrun. cbv zeta in Hrun. fold r in Hrun.
  destruct (fst r) as [err|items] eqn:Er.
  - eexists Continue, (Some err), _. split; [exact Hrun|]. split.
    + split; [discriminate|]. intros (items & p & H & _). discriminate.
    + intros fuel T splay status0 Hlt.
      pose proof (waitLoop_step fuel T listOps pod splay status0 s Hlt) as Hs.
      cbv zeta in Hs. fold r in Hs. rewrite Er in Hs. exact Hs.
  - destruct (judgePods K pod items) as [ctl status] eqn:Ej.
    exists ctl, status, (afterPoll listOps s (inr items) (snd r)).
    split; [exact Hrun|]. split.
    + pose proof (judgePods_Break pod items) as Hb. rewrite Ej in Hb. simpl in Hb.
      rewrite Hb. split.
      * intros (p & H1 & H2). eauto.
      * intros (items' & p & H0 & H1 & H2). inversion H0; subst. eauto.
    + intros fuel T splay status0 Hlt.
      pose proof (waitLoop_step fuel T listOps pod splay status0 s Hlt) as Hs.
      cbv zeta in Hs. fold r in Hs. rewrite Er, Ej in Hs. cbn [fst snd] in Hs.
      pose proof (judgePods_Break_status pod items) as Hst. rewrite Ej in Hst. simpl in Hst.
      destruct ctl; [|exact Hs].
      rewrite Hs. now rewrite (Hst eq_refl).
Qed.

(** *** What a wait adds to the trace *)

Lemma deletions_app (l1 l2 : list Event) :
  deletions (l1 ++ l2) = deletions l1 ++ deletions l2.
Proof.
  induction l1 as [|ev l1 IH]; simpl; [reflexivity|].
  destruct ev; simpl; now rewrite ?IH.
Qed.


Lemma polls_app (l1 l2 : list Event) : polls (l1 ++ l2) = (polls l1 + polls l2)%nat.
Proof.
  induction l1 as [|ev l1 IH]; simpl; [reflexivity|].
  destruct ev; simpl; now rewrite ?IH.
Qed.




(** Within the range where [splay] does not wrap around, the loop ends
    after at most the number of polls the timeout allows. *)
Lemma waitLoop_terminates (T : Z) (listOps : ListOptions) (pod : Pod) :
  forall (n fuel : nat) (splay : Z) (status : option error) (s : State World),
    0 <= splay -> splay mod 10 = 0 -> T <= 65530 ->
    T - splay <= 10 * Z.of_nat n -> (n <= fuel)%nat ->
    exists r s' evs,
      waitLoop K fuel T listOps pod splay status s = Ret r s'
      /\ trace s' = trace s ++ evs /\ (polls evs <= n)%nat /\ sleeps evs = polls evs.
Proof.
  induction n as [|n IH]; intros fuel splay status s H0 Hmod HT Hrem Hfuel.
  - rewrite waitLoop_done by lia.
    exists status, s, []. rewrite app_nil_r. simpl. auto.
  - destruct (Z.lt_ge_cases splay T) as [Hlt|Hge].
    + destruct fuel as [|fuel]; [lia|].
      rewrite waitLoop_step by assumption.
      set (r := client_List K listOps _).
      destruct (fst _) as [|].
      * eexists _, _, [EvSleep (splayTimeSeconds * Second); EvList listOps (fst r)].
        split; [reflexivity|]. simpl. repeat split; auto. lia.
      * assert (Hadd : uint16_add splay splayTimeSeconds = splay + 10).
        { unfold uint16_add, splayTimeSeconds. apply Z.mod_small.
          pose proof (Z.div_mod splay 10). lia. }
        rewrite Hadd.
        destruct (IH fuel (splay + 10)
                    (snd match fst r with
                         | inl err => (Continue, Some err)
                         | inr items => judgePods K pod items
                         end)
                    (afterPoll listOps s (fst r) (snd r))) as (r' & s' & evs & Hr & Ht & Hp & Hs);
          try lia.
        { rewrite <- Zplus_mod_idemp_l, Hmod. reflexivity. }
        exists r', s', ([EvSleep (splayTimeSeconds * Second); EvList listOps (fst r)] ++ evs).
        split; [exact Hr|]. rewrite Ht. simpl. rewrite <- app_assoc. simpl.
        repeat split; auto. lia.
    + rewrite waitLoop_done by assumption.
      exists status, s, []. rewrite app_nil_r. simpl. repeat split; auto. lia.
Qed.

Lemma waitPodReadyState_polls_bounded (fuel : nat) (instance : OneAgent) (pod : Pod)
    (T : Z) (s : State World) :
  Spec_WaitReadySeconds (OneAgent_Spec instance) = Some T ->
  0 <= T <= 65530 ->
  (Z.to_nat ((T + 9) / 10) <= fuel)%nat ->
  exists r s' evs,
    waitPodReadyState K fuel instance pod s = Ret r s'
    /\ trace s' = trace s ++ evs
    /\ Z.of_nat (polls evs) <= (T + 9) / 10 /\ sleeps evs = polls evs.
Proof.
  intros HT Hrange Hfuel. unfold waitPodReadyState. rewrite HT.
  destruct (waitLoop_terminates T (listOptionsFor K instance) pod
              (Z.to_nat ((T + 9) / 10)) fuel 0 None s)
    as (r & s' & evs & Hr & Ht & Hp & Hs); try lia.
  - reflexivity.
  - pose proof (Z.div_mod (T + 9) 10). pose proof (Z.mod_pos_bound (T + 9) 10).
    assert (0 <= (T + 9) / 10) by (apply Z.div_pos; lia). lia.
  - exists r, s', evs. repeat split; auto.
    assert (0 <= (T + 9) / 10) by (apply Z.div_pos; lia). lia.
Qed.

Lemma judgePods_nil_status (pod : Pod) (items : list Pod) :
  snd (judgePods K pod items) = None -> length (candidatePods pod items) = 1%nat.
Proof.
  unfold judgePods. rewrite foundPods_candidatePods.
  destruct (candidatePods pod items) as [|p [|q l]]; simpl; try discriminate.
  reflexivity.
Qed.

(** A wait that returns nil has either not polled at all, the timeout being
    used up from the start, or its last poll has listed exactly one running
    pod, other than the deleted one, on the node. *)
Lemma waitLoop_nil_observed (fuel : nat) (T : Z) (listOps : ListOptions) (pod : Pod) :
  forall (splay : Z) (status : option error) (s s' : State World),
    waitLoop K fuel T listOps pod splay status s = Ret None s' ->
    (s' = s /\ status = None /\ T <= splay)
    \/ (exists evs items,
          trace s' = trace s ++ evs ++
            [EvSleep (splayTimeSeconds * Second); EvList listOps (inr items)]
          /\ length (candidatePods pod items) = 1%nat).
Proof.
  induction fuel as [|fuel IH]; intros splay status s s' Hrun.
  - simpl in Hrun. destruct (Z.ltb_spec splay T); [discriminate|].
    inversion Hrun; subst. auto.
  - destruct (Z.lt_ge_cases splay T) as [Hlt|Hge].
    + rewrite waitLoop_step in Hrun by assumption.
      set (r := client_List K listOps _) in Hrun.
      right. destruct (fst r) as [err|items] eqn:Er; cbn [fst snd] in Hrun.
      * apply IH in Hrun. destruct Hrun as [(_ & Hst & _)|(evs & items & Ht & Hn)];
          [discriminate|].
        exists ([EvSleep (splayTimeSeconds * Second); EvList listOps (inl err)] ++ evs), items.
        split; [|exact Hn]. rewrite Ht. simpl. now rewrite <- !app_assoc.
      * destruct (judgePods K pod items) as [ctl st] eqn:Ej.
        pose proof (judgePods_nil_status pod items) as Hone. rewrite Ej in Hone.
        cbn [fst snd] in *.
        destruct ctl.
        -- inversion Hrun; subst. exists [], items. split; [reflexivity|]. auto.
        -- apply IH in Hrun.
           destruct Hrun as [(-> & Hst & _)|(evs & items' & Ht & Hn)].
           ++ exists [], items. split; [reflexivity|]. auto.
           ++ exists ([EvSleep (splayTimeSeconds * Second); EvList listOps (inr items)] ++ evs),
                items'.
              split; [|exact Hn]. rewrite Ht. simpl. now rewrite <- !app_assoc.
    + rewrite waitLoop_done in Hrun by assumption. inversion Hrun; subst. auto.
Qed.

Lemma waitPodReadyState_nil_observed (fuel : nat) (instance : OneAgent) (pod : Pod)
    (T : Z) (s s' : State World) :
  Spec_WaitReadySeconds (OneAgent_Spec instance) = Some T -> 0 < T ->
  waitPodReadyState K fuel instance pod s = Ret None s' ->
  exists evs items,
    trace s' = trace s ++ evs ++
      [EvSleep (splayTimeSeconds * Second); EvList (listOptionsFor K instance) (inr items)]
    /\ length (candidatePods pod items) = 1%nat.
Proof.
  intros HT Hpos Hrun. unfold waitPodReadyState in Hrun. rewrite HT in Hrun.
  apply waitLoop_nil_observed in Hrun.
  destruct Hrun as [(_ & _ & Hle)|H]; [lia|exact H].
Qed.

(** *** The rollout *)

Lemma deletePods_cons (fuel : nat) (instance : OneAgent) (pod : Pod) (pods : list Pod)
    (s : State World) :
  let deleting :=
    EvInfo "deleting pod" [("pod", VStr (Pod_Name pod)); ("node", VStr (Pod_NodeName pod))] in
  let waiting :=
    EvInfo "waiting until pod is ready on node" [("node", VStr (Pod_NodeName pod))] in
  let recreated :=
    EvInfo "pod recreated successfully on node" [("node", VStr (Pod_NodeName pod))] in
  let d := client_Delete K pod (world s) in
  deletePods K fuel instance (pod :: pods) s =
    match fst d with
    | Some e => Ret (Some e) {| world := snd d; trace := trace s ++ [deleting; EvDelete pod] |}
    | None =>
        match waitPodReadyState K fuel instance pod
                {| world := snd d; trace := trace s ++ [deleting; EvDelete pod; waiting] |} with
        | Ret (Some e) s' => Ret (Some e) s'
        | Ret None s' =>
            deletePods K fuel instance pods
              {| world := world s'; trace := trace s' ++ [recreated] |}
        | Panic msg s' => Panic msg s'
        | OutOfFuel s' => OutOfFuel s'
        end
    end.
Proof.
  intros deleting waiting recreated d. subst d. simpl. run.
  destruct (client_Delete K pod (world s)) as [[e|] w]; simpl.
  - now rewrite app_two.
  - rewrite !app_two, <- app_assoc. simpl.
    destruct (waitPodReadyState K fuel instance pod _) as [[e|] s'|msg s'|s']; reflexivity.
Qed.

(** C4 (as amended).  A poll that finds more than one running pod on the
    node does not stop the loop: the error "too many pods found" becomes the
    status and the loop goes on to its next iteration, where a later poll
    may replace it.  The error is what the wait returns when that poll was
    the last one the timeout allows; and when the wait returns it,
    [deletePods] returns it in the state the wait ended in, so that no
    further stale pod is processed. *)
Theorem waitLoop_too_many_pods (fuel : nat) (T : Z) (instance : OneAgent) (pod : Pod)
    (splay : Z) (status : option error) (s : State World) (items : list Pod) (w' : World) :
  let listOps := listOptionsFor K instance in
  let e := Errorf "too many pods found: expected=1 actual=%d"
             [VInt (Z.of_nat (length (foundPods pod items)))] in
  let s' := afterPoll listOps s (inr items) w' in
  splay < T ->
  client_List K listOps (time_Sleep K (splayTimeSeconds * Second) (world s)) = (inr items, w') ->
  (1 < length (foundPods pod items))%nat ->
  waitLoop K (S fuel) T listOps pod splay status s
  = waitLoop K fuel T listOps pod (uint16_add splay splayTimeSeconds) (Some e) s'
  /\ (T <= uint16_add splay splayTimeSeconds ->
      waitLoop K (S fuel) T listOps pod splay status s = Ret (Some e) s')
  /\ (forall pods s0 s1 s2,
        fst (client_Delete K pod (world s0)) = None ->
        s1 = {| world := snd (client_Delete K pod (world s0));
                trace := trace s0 ++
                  [EvInfo "deleting pod"
                     [("pod", VStr (Pod_Name pod)); ("node", VStr (Pod_NodeName pod))];
                   EvDelete pod;
                   EvInfo "waiting until pod is ready on node"
                     [("node", VStr (Pod_NodeName pod))]] |} ->
        waitPodReadyState K (S fuel) instance pod s1 = Ret (Some e) s2 ->
        deletePods K (S fuel) instance (pod :: pods) s0 = Ret (Some e) s2).
Proof.
  intros listOps e s' Hlt Hlist Hn.
  assert (Hstep : waitLoop K (S fuel) T listOps pod splay status s
                  = waitLoop K fuel T listOps pod (uint16_add splay splayTimeSeconds)
                      (Some e) s').
  { rewrite waitLoop_step by assumption. rewrite Hlist. cbn [fst snd].
    now rewrite judgePods_too_many by assumption. }
  split; [exact Hstep|]. split.
  - intros Hlast. rewrite Hstep. now apply waitLoop_done.
  - intros pods s0 s1 s2 Hdel -> Hwait.
    rewrite deletePods_cons. cbv zeta. rewrite Hdel. now rewrite Hwait.
Qed.


(** *** Version convergence *)

(** C7.  When the query for the latest version fails, [reconcileVersion]
    returns no error and asks for no update of the custom resource; the
    instance, hence the version recorded in its status, is as it was; nothing
    is done but the query and a log line; and the tick that got there ends
    without error, asking to be requeued after 30 minutes. *)
Theorem reconcileVersion_query_failure (fuel : nat) (request : NamespacedName)
    (s0 : State World) (instance : OneAgent) (dtc : DtClient) (s : State World)
    (err : error) (w' : World) :
  let s' := {| world := w';
               trace := trace s ++
                 [EvGetVersion; EvInfof "failed to get desired version: %s" err] |} in
  reconcileSetup K request s0 = Ret (inr (instance, dtc)) s ->
  Spec_DisableAgentUpdate (OneAgent_Spec instance) = false ->
  GetVersionForLatest K dtc (world s) = (inl err, w') ->
  reconcileVersion K fuel instance dtc s = Ret (instance, false, None) s'
  /\ Reconcile K fuel request s0
     = Ret ({| Requeue := false; RequeueAfter := 30 * Minute |}, None) s'.
Proof.
  intros s' Hsetup Hflag Hquery.
  assert (Hv : reconcileVersion K fuel instance dtc s = Ret (instance, false, None) s').
  { unfold reconcileVersion. run. rewrite Hquery. simpl. now rewrite app_two. }
  split; [exact Hv|].
  unfold Reconcile, bind. rewrite Hsetup. unfold reconcileUpdate. rewrite Hflag.
  unfold bind. now rewrite Hv.
Qed.

End ControllerFacts.

(** ** Runs on the simulated cluster *)

Ltac sim := vm_compute; reflexivity.

(** A write the simulated API server refuses leaves the object alone. *)
Lemma Sim_failed_update_keeps_object (obj : OneAgent) (w : Sim.Cluster) (obj' : OneAgent)
    (e : error) (w' : Sim.Cluster) :
  client_Update Sim.K obj w = ((obj', Some e), w') -> obj' = obj.
Proof. simpl. congruence. Qed.

Lemma Sim_failed_status_update_keeps_object (obj : OneAgent) (w : Sim.Cluster)
    (obj' : OneAgent) (e : error) (w' : Sim.Cluster) :
  client_StatusUpdate Sim.K obj w = ((obj', Some e), w') -> obj' = obj.
Proof. simpl. congruence. Qed.

(** C1, counterexample.  The spec-update write fails: [updateCR] returns the
    error and the instance is left with the empty placeholder, which is not
    the saved status. *)
Lemma updateCR_first_write_fails_counterexample :
  exists instance' e s',
    updateCR Sim.K (Sim.agent 300) (Sim.start Sim.clusterUpdateFails)
    = Ret (instance', Some e) s'
    /\ OneAgent_Status instance' = emptyStatus
    /\ OneAgent_Status instance'
       <> withUpdatedTimestamp (OneAgent_Status (Sim.agent 300)) (UnixNano 1600000000).
Proof.
  eexists _, _, _. split; [sim|]. split; [sim|]. discriminate.
Qed.

(** The status-only write is refused on the simulated cluster, whose failed
    writes leave the object alone: the instance comes back with the saved
    status. *)
Lemma updateCR_status_after_failure_witness :
  (forall obj w obj' e w', client_Update Sim.K obj w = ((obj', Some e), w') -> obj' = obj)
  /\ (forall obj w obj' e w',
        client_StatusUpdate Sim.K obj w = ((obj', Some e), w') -> obj' = obj)
  /\ exists instance' s',
       updateCR Sim.K (Sim.agent 300) (Sim.start Sim.clusterStatusFails)
       = Ret (instance', Some (Failure "conflict")) s'
       /\ OneAgent_Status instance'
          = withUpdatedTimestamp (OneAgent_Status (Sim.agent 300)) (UnixNano 1600000000).
Proof.
  split; [exact Sim_failed_update_keeps_object|].
  split; [exact Sim_failed_status_update_keeps_object|].
  destruct (updateCR_status_after_failure Sim.K
              Sim_failed_update_keeps_object Sim_failed_status_update_keeps_object
              (Sim.agent 300) (Sim.start Sim.clusterStatusFails))
    as (instance' & r & s' & Hrun & Hr & Hstatus).
  exists instance', s'. simpl in Hr. subst r. split; [exact Hrun|].
  exact (Hstatus _ eq_refl).
Defined.

(** C2, counterexample.  A tick that reaches the test with the flag set
    returns the empty result: its delay is zero, not 30 minutes. *)
Lemma Reconcile_update_disabled_counterexample :
  exists instance dtc s1 res s',
    reconcileSetup Sim.K Sim.request (Sim.start Sim.clusterNoUpdate)
    = Ret (inr (instance, dtc)) s1
    /\ Spec_DisableAgentUpdate (OneAgent_Spec instance) = true
    /\ Reconcile Sim.K 0 Sim.request (Sim.start Sim.clusterNoUpdate) = Ret (res, None) s'
    /\ Requeue res = false /\ RequeueAfter res = 0
    /\ RequeueAfter res <> 30 * Minute.
Proof.
  eexists _, _, _, _, _. split; [sim|]. split; [sim|].
  split; [sim|]. split; [sim|]. split; [sim|]. discriminate.
Qed.

(** The tick on the instance with automatic update disabled. *)
Lemma Reconcile_update_disabled_witness :
  exists instance dtc s1,
    reconcileSetup Sim.K Sim.request (Sim.start Sim.clusterNoUpdate)
    = Ret (inr (instance, dtc)) s1
    /\ Spec_DisableAgentUpdate (OneAgent_Spec instance) = true
    /\ Reconcile Sim.K 0 Sim.request (Sim.start Sim.clusterNoUpdate)
       = Ret ({| Requeue := false; RequeueAfter := 0 |}, None)
           {| world := world s1;
              trace := trace s1 ++ [EvInfo "automatic oneagent update is disabled" []] |}.
Proof.
  eexists _, _, _. split; [sim|]. split; [sim|].
  eapply (Reconcile_update_disabled Sim.K 0 Sim.request (Sim.start Sim.clusterNoUpdate)).
  - sim.
  - sim.
Defined.

(** C3, counterexample.  The delete call answers not-found: [deletePods]
    returns that error, has not polled once and has left the second pod
    alone. *)
Lemma deletePods_not_found_counterexample :
  exists e s',
    deletePods Sim.K 1 (Sim.agent 300) [Sim.podA; Sim.podB] (Sim.start Sim.clusterPodGone)
    = Ret (Some e) s'
    /\ IsNotFound e = true
    /\ polls (trace s') = 0%nat /\ sleeps (trace s') = 0%nat
    /\ deletions (trace s') = [Sim.podA].
Proof.
  eexists _, _. split; [sim|]. repeat split.
Qed.

(** The rollout on the cluster whose pod is already gone. *)
Lemma deletePods_delete_error_witness :
  client_Delete Sim.K Sim.podA (world (Sim.start Sim.clusterPodGone))
  = (Some (NotFound "pods"), Sim.clusterPodGone)
  /\ deletePods Sim.K 1 (Sim.agent 300) [Sim.podA; Sim.podB] (Sim.start Sim.clusterPodGone)
     = Ret (Some (NotFound "pods"))
         {| world := Sim.clusterPodGone;
            trace := trace (Sim.start Sim.clusterPodGone) ++
              [EvInfo "deleting pod"
                 [("pod", VStr (Pod_Name Sim.podA)); ("node", VStr (Pod_NodeName Sim.podA))];
               EvDelete Sim.podA] |}.
Proof.
  split; [sim|].
  apply (deletePods_delete_error Sim.K 1 (Sim.agent 300) Sim.podA [Sim.podB]
           (Sim.start Sim.clusterPodGone) (NotFound "pods") Sim.clusterPodGone).
  sim.
Defined.

(** C4, counterexample.  The first poll for node-a finds two running pods;
    the loop polls again, finds one ready pod and the wait succeeds; the
    rollout goes on to delete the pod on node-b. *)
Lemma deletePods_too_many_then_one_counterexample :
  exists s',
    deletePods Sim.K 2 (Sim.agent 20) [Sim.podA; Sim.podB] (Sim.start Sim.clusterTwoThenOne)
    = Ret None s'
    /\ listAnswers (trace s')
       = [inr [Sim.replacementA true; Sim.strayA]; inr [Sim.replacementA true];
          inr [Sim.replacementB]]
    /\ length (foundPods Sim.podA [Sim.replacementA true; Sim.strayA]) = 2%nat
    /\ deletions (trace s') = [Sim.podA; Sim.podB].
Proof.
  eexists. split; [sim|]. split; [sim|]. split; sim.
Qed.

(** The first poll of the wait for node-a, which finds two running pods. *)
Lemma waitLoop_too_many_pods_witness :
  0 < 20
  /\ client_List Sim.K (listOptionsFor Sim.K (Sim.agent 20))
       (time_Sleep Sim.K (splayTimeSeconds * Second)
          (world (Sim.start Sim.clusterTwoThenOne)))
     = (inr [Sim.replacementA true; Sim.strayA],
        Sim.setLists Sim.clusterTwoThenOne
          [inr [Sim.replacementA true]; inr [Sim.replacementB]])
  /\ (1 < length (foundPods Sim.podA [Sim.replacementA true; Sim.strayA]))%nat
  /\ waitLoop Sim.K 2 20 (listOptionsFor Sim.K (Sim.agent 20)) Sim.podA 0 None
       (Sim.start Sim.clusterTwoThenOne)
     = waitLoop Sim.K 1 20 (listOptionsFor Sim.K (Sim.agent 20)) Sim.podA
         (uint16_add 0 splayTimeSeconds)
         (Some (Errorf "too many pods found: expected=1 actual=%d"
                  [VInt (Z.of_nat
                           (length (foundPods Sim.podA
                                      [Sim.replacementA true; Sim.strayA])))]))
         (afterPoll (listOptionsFor Sim.K (Sim.agent 20)) (Sim.start Sim.clusterTwoThenOne)
            (inr [Sim.replacementA true; Sim.strayA])
            (Sim.setLists Sim.clusterTwoThenOne
               [inr [Sim.replacementA true]; inr [Sim.replacementB]])).
Proof.
  split; [lia|]. split; [sim|]. split; [simpl; lia|].
  refine (proj1 (waitLoop_too_many_pods Sim.K 1 20 (Sim.agent 20) Sim.podA 0 None
                   (Sim.start Sim.clusterTwoThenOne)
                   [Sim.replacementA true; Sim.strayA]
                   (Sim.setLists Sim.clusterTwoThenOne
                      [inr [Sim.replacementA true]; inr [Sim.replacementB]])
                   _ _ _)).
  - lia.
  - sim.
  - simpl. lia.
Defined.

(** C5, the code at the failing inputs.  With a timeout of 10 seconds the
    one poll the loop makes finds a single running replacement that is not
    ready: the loop goes on, its bound is used up, and the wait returns nil.
    With a timeout of 0 the loop does not poll at all and the wait returns
    nil at once. *)
Theorem waitPodReadyState_nil_without_ready_pod :
  (fst (judgePods Sim.K Sim.podA [Sim.replacementA false]) = Continue
   /\ exists s',
       waitPodReadyState Sim.K 5 (Sim.agent 10) Sim.podA (Sim.start Sim.clusterNotReady)
       = Ret None s'
       /\ listAnswers (trace s') = [inr [Sim.replacementA false]]
       /\ getPodReadyState Sim.K (Sim.replacementA false) = false)
  /\ (forall fuel pod c,
        waitPodReadyState Sim.K fuel (Sim.agent 0) pod (Sim.start c)
        = Ret None (Sim.start c)).
Proof.
  split.
  - split; [sim|]. eexists. split; [sim|]. split; sim.
  - intros fuel pod c. unfold waitPodReadyState. simpl.
    now apply waitLoop_done.
Qed.

(** On a cluster where nothing is recreated, [splay] stays even and below
    65535: every iteration finds the loop condition true. *)
Lemma Sim_waitLoop_wraps (fuel : nat) :
  forall (splay : Z) (status : option error) (tr : list Event),
    0 <= splay < 65536 -> splay mod 2 = 0 ->
    exists tr',
      waitLoop Sim.K fuel 65535 (listOptionsFor Sim.K (Sim.agent 65535)) Sim.podA splay status
        {| world := Sim.clusterNeverRecreated; trace := tr |}
      = OutOfFuel {| world := Sim.clusterNeverRecreated; trace := tr' |}
      /\ polls tr' = (polls tr + fuel)%nat.
Proof.
  induction fuel as [|fuel IH]; intros splay status tr Hrange Heven.
  - assert (Hlt : splay < 65535).
    { destruct (Z.eq_dec splay 65535) as [->|]; [discriminate|lia]. }
    apply Z.ltb_lt in Hlt. simpl. rewrite Hlt.
    eexists. split; [sim|]. simpl. lia.
  - assert (Hlt : splay < 65535).
    { destruct (Z.eq_dec splay 65535) as [->|]; [discriminate|lia]. }
    rewrite waitLoop_step by assumption. cbn [fst snd].
    change (Sim.listPods Sim.clusterNeverRecreated)
      with (inr (A := error) (@nil Pod), Sim.clusterNeverRecreated).
    cbn [fst snd]. unfold afterPoll. cbn [world trace].
    change (fst (judgePods Sim.K Sim.podA [])) with Continue. cbv iota.
    destruct (IH (uint16_add splay splayTimeSeconds)
                (snd (judgePods Sim.K Sim.podA []))
                (tr ++ [EvSleep (splayTimeSeconds * Second);
                        EvList (listOptionsFor Sim.K (Sim.agent 65535)) (inr [])]))
      as (tr' & Hrun & Hpolls).
    + unfold uint16_add. apply Z.mod_pos_bound. lia.
    + unfold uint16_add, splayTimeSeconds.
      pose proof (Z.div_mod (splay + 10) 65536).
      pose proof (Z.div_mod splay 2).
      pose proof (Z.div_mod ((splay + 10) mod 65536) 2).
      pose proof (Z.mod_pos_bound ((splay + 10) mod 65536) 2).
      lia.
    + exists tr'. split; [exact Hrun|]. rewrite Hpolls, polls_app. simpl. lia.
Qed.

(** C6, the code at the failing input.  With a timeout of 65535 seconds the
    uint16 counter wraps around before it reaches the timeout: as long as no
    replacement shows up the loop never ends, whatever number of polls it is
    given; after [fuel] polls it is still polling. *)
Theorem waitPodReadyState_uint16_wraparound (fuel : nat) :
  exists s',
    waitPodReadyState Sim.K fuel (Sim.agent 65535) Sim.podA
      (Sim.start Sim.clusterNeverRecreated)
    = OutOfFuel s'
    /\ polls (trace s') = fuel.
Proof.
  unfold waitPodReadyState. simpl Spec_WaitReadySeconds. cbv iota.
  destruct (Sim_waitLoop_wraps fuel 0 None []) as (tr' & Hrun & Hpolls);
    [lia|reflexivity|].
  eexists. split; [exact Hrun|]. exact Hpolls.
Qed.

(** The tick on the cluster whose vendor API does not answer. *)
Lemma reconcileVersion_query_failure_witness :
  exists instance dtc s w',
    reconcileSetup Sim.K Sim.request (Sim.start Sim.clusterVendorDown)
    = Ret (inr (instance, dtc)) s
    /\ Spec_DisableAgentUpdate (OneAgent_Spec instance) = false
    /\ GetVersionForLatest Sim.K dtc (world s) = (inl (Failure "503 Service Unavailable"), w')
    /\ reconcileVersion Sim.K 0 instance dtc s
       = Ret (instance, false, None)
           {| world := w';
              trace := trace s ++
                [EvGetVersion;
                 EvInfof "failed to get desired version: %s"
                   (Failure "503 Service Unavailable")] |}
    /\ Reconcile Sim.K 0 Sim.request (Sim.start Sim.clusterVendorDown)
       = Ret ({| Requeue := false; RequeueAfter := 30 * Minute |}, None)
           {| world := w';
              trace := trace s ++
                [EvGetVersion;
                 EvInfof "failed to get desired version: %s"
                   (Failure "503 Service Unavailable")] |}.
Proof.
  eexists _, _, _, _. split; [sim|]. split; [sim|]. split; [sim|].
  eapply (reconcileVersion_query_failure Sim.K 0 Sim.request
            (Sim.start Sim.clusterVendorDown)).
  - sim.
  - sim.
  - sim.
Defined.

(** The tick on an instance without env entries: the daemonset convergence
    is reached and panics. *)
Lemma Reconcile_panics_without_env :
  exists s',
    Reconcile Sim.K 0 Sim.request (Sim.start (Sim.cluster Sim.agentNoEnv []))
    = Panic "index out of range" s'.
Proof. eexists. sim. Qed.

(** ** Further facts *)

Section MoreFacts.

Context {World DtClient : Type}.
Variable K : Collaborators World DtClient.

Ltac go :=
  unfold Info, Error, Sleep, call, observe, emit, bind, ret, panic;
  cbn [world trace fst snd].

Ltac split_matches :=
  repeat match goal with
         | |- context [match ?x with _ => _ end] =>
             lazymatch x with
             | context [match _ with _ => _ end] => fail
             | _ => destruct x eqn:?; cbn [world trace fst snd]
             end
         end.

(** *** The daemonset convergence, case by case *)

Lemma reconcileRollout_run (instance : OneAgent) (s : State World) (env0 : EnvVar) :
  Spec_Env (OneAgent_Spec instance) !! 0%nat = Some env0 ->
  let instance' := withInstallerToken instance in
  let injected := negb (String.eqb (EnvVar_Name env0) "ONEAGENT_INSTALLER_TOKEN") in
  reconcileRollout K instance s =
    match SetControllerReference K instance' (newDaemonSetForCR K instance') with
    | inl err => Ret (instance', false, Some err) s
    | inr ds =>
        let key := {| NN_Namespace := DaemonSet_Namespace ds; NN_Name := DaemonSet_Name ds |} in
        let g := client_GetDaemonSet K key (world s) in
        match fst g with
        | inl err =>
            if IsNotFound err then
              let c := client_Create K ds (snd g) in
              Ret (instance', match fst c with Some _ => false | None => injected end, fst c)
                {| world := snd c;
                   trace := trace s ++
                     [EvGetDaemonSet key; EvInfo "creating new daemonset" []; EvCreate ds] |}
            else
              Ret (instance', false, Some err)
                {| world := snd g; trace := trace s ++ [EvGetDaemonSet key] |}
        | inr dsActual =>
            if hasSpecChanged K (DaemonSet_Spec dsActual) (OneAgent_Spec instance') then
              let u := client_UpdateDaemonSet K ds (snd g) in
              Ret (instance', match fst u with Some _ => false | None => injected end, fst u)
                {| world := snd u;
                   trace := trace s ++
                     [EvGetDaemonSet key; EvInfo "updating existing daemonset" [];
                      EvUpdateDaemonSet ds] |}
            else
              Ret (instance', injected, None)
                {| world := snd g; trace := trace s ++ [EvGetDaemonSet key] |}
        end
    end.
Proof.
  intros Hhead instance' injected. unfold reconcileRollout. rewrite Hhead.
  assert (Hi : instance' =
               if injected then
                 withSpec instance
                   (withEnv (OneAgent_Spec instance)
                      (installerTokenEnv (Spec_Tokens (OneAgent_Spec instance))
                       :: Spec_Env (OneAgent_Spec instance)))
               else instance).
  { subst instance' injected. unfold withInstallerToken.
    destruct (Spec_Env (OneAgent_Spec instance)) as [|e l]; [discriminate|].
    simpl in Hhead. inversion Hhead; subst.
    now destruct (String.eqb _ _). }
  fold injected. simpl take. simpl drop. cbn [app].
  destruct injected; rewrite Hi;
    (destruct (SetControllerReference K _ _) as [e|ds]; [destruct s; reflexivity|]);
    go;
    (destruct (client_GetDaemonSet K _ _) as [[e|dsActual] w]; cbn [fst snd];
     [ destruct (IsNotFound e); go;
       [ destruct (client_Create K _ _) as [[e'|] w']; cbn [fst snd];
         now rewrite !app_two, <- ?app_assoc
       | reflexivity ]
     | destruct (hasSpecChanged K _ _); go;
       [ destruct (client_UpdateDaemonSet K _ _) as [[e'|] w']; cbn [fst snd];
         now rewrite !app_two, <- ?app_assoc
       | reflexivity ] ]).
Qed.

Lemma withInstallerToken_head (instance : OneAgent) (env0 : EnvVar) :
  Spec_Env (OneAgent_Spec instance) !! 0%nat = Some env0 ->
  exists env1,
    Spec_Env (OneAgent_Spec (withInstallerToken instance)) !! 0%nat = Some env1
    /\ EnvVar_Name env1 = "ONEAGENT_INSTALLER_TOKEN".
Proof.
  unfold withInstallerToken.
  destruct (Spec_Env (OneAgent_Spec instance)) as [|e l] eqn:E; [discriminate|].
  intros _. destruct (String.eqb_spec (EnvVar_Name e) "ONEAGENT_INSTALLER_TOKEN").
  - rewrite E. eauto.
  - simpl. eauto.
Qed.

Lemma reconcileRollout_Ret_head (instance : OneAgent) (s : State World)
    (r : OneAgent * bool * option error) (s' : State World) :
  reconcileRollout K instance s = Ret r s' ->
  exists env0, Spec_Env (OneAgent_Spec instance) !! 0%nat = Some env0.
Proof.
  unfold reconcileRollout.
  destruct (Spec_Env (OneAgent_Spec instance) !! 0%nat) as [env0|]; [eauto|discriminate].
Qed.

(** X1.  Whenever [reconcileRollout] returns, with or without an error, the
    instance it leaves is the one it got with the installer token in front
    of the env list, unless the list started with it already; so the list
    then starts with ONEAGENT_INSTALLER_TOKEN.  It reports that the custom
    resource is to be updated only when it has put the entry in and no
    store call failed; when it reports nothing to update and no error, the
    instance is untouched. *)
Theorem reconcileRollout_installer_token (instance : OneAgent) (s : State World)
    (instance' : OneAgent) (updateCR' : bool) (err : option error) (s' : State World) :
  reconcileRollout K instance s = Ret (instance', updateCR', err) s' ->
  instance' = withInstallerToken instance
  /\ (exists env1,
        Spec_Env (OneAgent_Spec instance') !! 0%nat = Some env1
        /\ EnvVar_Name env1 = "ONEAGENT_INSTALLER_TOKEN")
  /\ (updateCR' = true ->
      err = None
      /\ Spec_Env (OneAgent_Spec instance')
         = {| EnvVar_Name := "ONEAGENT_INSTALLER_TOKEN";
              EnvVar_Value := "";
              EnvVar_ValueFrom :=
                Some {| SecretKeySelector_Name := Spec_Tokens (OneAgent_Spec instance);
                        SecretKeySelector_Key := "paasToken" |} |}
           :: Spec_Env (OneAgent_Spec instance))
  /\ (updateCR' = false -> err = None -> instance' = instance).
Proof.
  intros Hrun.
  destruct (reconcileRollout_Ret_head _ _ _ _ Hrun) as (env0 & Hhead).
  pose proof (withInstallerToken_head instance env0 Hhead) as Hh.
  rewrite (reconcileRollout_run instance s env0 Hhead) in Hrun. cbv zeta in Hrun.
  assert (Hinj : negb (String.eqb (EnvVar_Name env0) "ONEAGENT_INSTALLER_TOKEN") = true ->
                 Spec_Env (OneAgent_Spec (withInstallerToken instance))
                 = installerTokenEnv (Spec_Tokens (OneAgent_Spec instance))
                   :: Spec_Env (OneAgent_Spec instance)).
  { unfold withInstallerToken.
    destruct (Spec_Env (OneAgent_Spec instance)) as [|e l]; [discriminate|].
    simpl in Hhead. inversion Hhead; subst.
    destruct (String.eqb _ _); [discriminate|reflexivity]. }
  assert (Hsame : negb (String.eqb (EnvVar_Name env0) "ONEAGENT_INSTALLER_TOKEN") = false ->
                  withInstallerToken instance = instance).
  { unfold withInstallerToken.
    destruct (Spec_Env (OneAgent_Spec instance)) as [|e l]; [discriminate|].
    simpl in Hhead. inversion Hhead; subst.
    destruct (String.eqb _ _); [reflexivity|discriminate]. }
  revert Hrun. split_matches; intros [= <- <- <- <-];
    (split; [reflexivity|]); (split; [exact Hh|]);
    (split;
     [ intros Hu; first [discriminate | split; [reflexivity|]; now apply Hinj]
     | intros Hu He; first [discriminate | now apply Hsame] ]).
Qed.

(** X2.  The installer token is put in once: on the instance a first run of
    [reconcileRollout] has left, a further run changes nothing of the
    instance and never asks for an update of the custom resource. *)
Theorem reconcileRollout_injects_once (instance : OneAgent) (s : State World)
    (instance' : OneAgent) (updateCR' : bool) (err : option error) (s' : State World)
    (s2 : State World) (instance2 : OneAgent) (updateCR2 : bool) (err2 : option error)
    (s2' : State World) :
  reconcileRollout K instance s = Ret (instance', updateCR', err) s' ->
  reconcileRollout K instance' s2 = Ret (instance2, updateCR2, err2) s2' ->
  instance2 = instance' /\ updateCR2 = false.
Proof.
  intros Hrun1 Hrun2.
  destruct (reconcileRollout_Ret_head _ _ _ _ Hrun1) as (env0 & Hhead).
  destruct (withInstallerToken_head instance env0 Hhead) as (env1 & Hhead1 & Hname).
  assert (Hi : instance' = withInstallerToken instance).
  { rewrite (reconcileRollout_run instance s env0 Hhead) in Hrun1. cbv zeta in Hrun1.
    revert Hrun1. split_matches; now intros [= <- <- <- <-]. }
  rewrite <- Hi in Hhead1.
  assert (Hfix : withInstallerToken instance' = instance').
  { unfold withInstallerToken.
    destruct (Spec_Env (OneAgent_Spec instance')) as [|e l]; [reflexivity|].
    simpl in Hhead1. inversion Hhead1; subst. now rewrite Hname. }
  rewrite (reconcileRollout_run instance' s2 env1 Hhead1) in Hrun2. cbv zeta in Hrun2.
  rewrite Hfix, Hname in Hrun2. simpl negb in Hrun2.
  revert Hrun2. split_matches; now intros [= <- <- <- <-].
Qed.

(** X3.  [reconcileRollout] writes to the store only when it has to: it
    creates the daemonset when the Get answers not-found, updates it when it
    exists and [hasSpecChanged] holds, and makes no write when it exists
    unchanged, when the Get fails otherwise or when the owner reference
    cannot be set.  The object written is the desired daemonset as
    [SetControllerReference] left it. *)
Theorem reconcileRollout_store_writes (instance : OneAgent) (s : State World)
    (env0 : EnvVar) :
  Spec_Env (OneAgent_Spec instance) !! 0%nat = Some env0 ->
  let instance' := withInstallerToken instance in
  exists r s' evs,
    reconcileRollout K instance s = Ret r s'
    /\ trace s' = trace s ++ evs
    /\ storeWrites evs =
       match SetControllerReference K instance' (newDaemonSetForCR K instance') with
       | inl _ => []
       | inr ds =>
           match fst (client_GetDaemonSet K
                        {| NN_Namespace := DaemonSet_Namespace ds;
                           NN_Name := DaemonSet_Name ds |} (world s)) with
           | inl err => if IsNotFound err then [EvCreate ds] else []
           | inr dsActual =>
               if hasSpecChanged K (DaemonSet_Spec dsActual) (OneAgent_Spec instance')
               then [EvUpdateDaemonSet ds] else []
           end
       end.
Proof.
  intros Hhead instance'.
  rewrite (reconcileRollout_run instance s env0 Hhead). cbv zeta. fold instance'.
  destruct (SetControllerReference K instance' _) as [e|ds].
  - exists (instance', false, Some e), s, []. now rewrite app_nil_r.
  - destruct (fst (client_GetDaemonSet K _ _)) as [e|dsActual].
    + destruct (IsNotFound e); eexists _, _, _; (split; [reflexivity|]);
        cbn [trace]; (split; [reflexivity|]); reflexivity.
    + destruct (hasSpecChanged K _ _); eexists _, _, _; (split; [reflexivity|]);
        cbn [trace]; (split; [reflexivity|]); reflexivity.
Qed.

Lemma updateCR_status_run_total (instance : OneAgent) (s : State World) :
  exists instance' r s', updateCR K instance s = Ret (instance', r) s'.
Proof.
  rewrite updateCR_run. cbv zeta.
  destruct (snd (fst (client_Update K _ _))) as [e|].
  - eexists _, _, _. reflexivity.
  - destruct (fst (client_StatusUpdate K _ _)) as [instance' r].
    eexists _, _, _. reflexivity.
Qed.

(** *** The tick, exit by exit *)

(** X4.  When the instance cannot be fetched the tick ends at once, having
    made no other call: without error and without requeue when the Get
    answers not-found, with the error of the Get otherwise. *)
Theorem Reconcile_fetch_failure (fuel : nat) (request : NamespacedName) (s : State World)
    (e : error) (w' : World) :
  client_Get K request (world s) = (inl e, w') ->
  Reconcile K fuel request s =
    Ret ({| Requeue := false; RequeueAfter := 0 |}, if IsNotFound e then None else Some e)
      {| world := w';
         trace := trace s ++ [EvInfo "reconciling oneagent" []; EvGet request] |}.
Proof.
  intros H. unfold Reconcile, reconcileSetup. go. rewrite H. cbn [fst snd].
  rewrite app_two. now destruct (IsNotFound e).
Qed.

(** X5.  An instance that does not validate, defaults applied, ends the tick
    with the validation error before any call but the Get is made: the
    vendor client is not built and nothing is written. *)
Theorem Reconcile_invalid_spec (fuel : nat) (request : NamespacedName) (s : State World)
    (instance : OneAgent) (e : error) (w' : World) :
  client_Get K request (world s) = (inr instance, w') ->
  validate K (scheme_Default K instance) = Some e ->
  Reconcile K fuel request s =
    Ret ({| Requeue := false; RequeueAfter := 0 |}, Some e)
      {| world := w';
         trace := trace s ++ [EvInfo "reconciling oneagent" []; EvGet request] |}.
Proof.
  intros H Hv. unfold Reconcile, reconcileSetup. go. rewrite H. cbn [fst snd].
  rewrite Hv. go. now rewrite app_two.
Qed.

(** X6.  When the name of the secret is empty, the tick sets it to the name
    of the instance, persists the instance with [updateCR] and ends: with an
    immediate requeue when the persist succeeds, with its error otherwise.
    The vendor client is not built and the daemonset is not looked at in
    that tick. *)
Theorem Reconcile_token_default (fuel : nat) (request : NamespacedName) (s : State World)
    (fetched : OneAgent) (w' : World) :
  let instance := scheme_Default K fetched in
  let named :=
    withSpec instance (withTokens (OneAgent_Spec instance) (OneAgent_Name instance)) in
  let s1 :=
    {| world := w';
       trace := trace s ++
         [EvInfo "reconciling oneagent" []; EvGet request;
          EvInfo "updating custom resource" [("cause", VStr "defaults applied")]] |} in
  client_Get K request (world s) = (inr fetched, w') ->
  validate K instance = None ->
  Spec_Tokens (OneAgent_Spec instance) = "" ->
  exists instance' r s',
    updateCR K named s1 = Ret (instance', r) s'
    /\ Spec_Tokens (OneAgent_Spec named) = OneAgent_Name instance
    /\ Reconcile K fuel request s =
       Ret (match r with
            | Some e => ({| Requeue := false; RequeueAfter := 0 |}, Some e)
            | None => ({| Requeue := true; RequeueAfter := 0 |}, None)
            end) s'.
Proof.
  intros instance named s1 H Hv Ht.
  destruct (updateCR_status_run_total named s1) as (instance' & r & s' & Hrun).
  exists instance', r, s'. split; [exact Hrun|]. split; [reflexivity|].
  unfold Reconcile, reconcileSetup. go. rewrite H. cbn [fst snd].
  fold instance. rewrite Hv, Ht. cbn [String.eqb]. go. rewrite <- !app_assoc. cbn [app].
  fold named. fold s1. rewrite Hrun. now destruct r.
Qed.

(** X7.  When the vendor client cannot be built the tick ends with that
    error: the daemonset is not looked at and nothing is written. *)
Theorem Reconcile_client_failure (fuel : nat) (request : NamespacedName) (s : State World)
    (fetched : OneAgent) (w1 : World) (e : error) (w2 : World) :
  let instance := scheme_Default K fetched in
  client_Get K request (world s) = (inr fetched, w1) ->
  validate K instance = None ->
  Spec_Tokens (OneAgent_Spec instance) <> "" ->
  dynatraceClientFunc K instance w1 = (inl e, w2) ->
  Reconcile K fuel request s =
    Ret ({| Requeue := false; RequeueAfter := 0 |}, Some e)
      {| world := w2;
         trace := trace s ++
           [EvInfo "reconciling oneagent" []; EvGet request; EvBuildClient] |}.
Proof.
  intros instance H Hv Ht Hc. apply String.eqb_neq in Ht.
  unfold Reconcile, reconcileSetup. go. rewrite H. cbn [fst snd].
  fold instance. rewrite Hv, Ht. go. rewrite Hc. cbn [fst snd].
  rewrite <- !app_assoc. reflexivity.
Qed.

(** X8.  The results of a tick.  A tick that returns an error returns the
    empty result with it; a tick without error returns the empty result, an
    immediate requeue, or a requeue after 5 or after 30 minutes, and nothing
    else. *)
Theorem Reconcile_result_shape (fuel : nat) (request : NamespacedName) (s : State World)
    (res : Result) (err : option error) (s' : State World) :
  Reconcile K fuel request s = Ret (res, err) s' ->
  (err <> None -> res = {| Requeue := false; RequeueAfter := 0 |})
  /\ (res = {| Requeue := false; RequeueAfter := 0 |}
      \/ res = {| Requeue := true; RequeueAfter := 0 |}
      \/ res = {| Requeue := false; RequeueAfter := 5 * Minute |}
      \/ res = {| Requeue := false; RequeueAfter := 30 * Minute |}).
Proof.
  unfold Reconcile, reconcileSetup, reconcileUpdate. go.
  split_matches; intros H; try discriminate; inversion H; subst;
    (split; [intros Hn; first [reflexivity | congruence] | auto]).
Qed.

Lemma instanceWrites_app (l1 l2 : list Event) :
  instanceWrites (l1 ++ l2) = instanceWrites l1 ++ instanceWrites l2.
Proof.
  induction l1 as [|ev l1 IH]; simpl; [reflexivity|].
  destruct ev; simpl; now rewrite ?IH.
Qed.

Lemma reconcileRollout_events (instance : OneAgent) (s : State World)
    (r : OneAgent * bool * option error) (s' : State World) :
  reconcileRollout K instance s = Ret r s' ->
  exists evs, trace s' = trace s ++ evs /\ instanceWrites evs = [] /\ deletions evs = [].
Proof.
  intros Hrun.
  destruct (reconcileRollout_Ret_head _ _ _ _ Hrun) as (env0 & Hhead).
  rewrite (reconcileRollout_run instance s env0 Hhead) in Hrun. cbv zeta in Hrun.
  revert Hrun. split_matches; intros [= <- <-]; cbn [trace];
    first [ exists []; now rewrite app_nil_r | eexists; split; [reflexivity|]; now split ].
Qed.

Lemma reconcileRollout_quiet (instance : OneAgent) (s : State World)
    (instance' : OneAgent) (s' : State World) :
  reconcileRollout K instance s = Ret (instance', false, None) s' ->
  instance' = instance
  /\ exists env0,
       Spec_Env (OneAgent_Spec instance) !! 0%nat = Some env0
       /\ EnvVar_Name env0 = "ONEAGENT_INSTALLER_TOKEN".
Proof.
  intros Hrun.
  destruct (reconcileRollout_Ret_head _ _ _ _ Hrun) as (env0 & Hhead).
  rewrite (reconcileRollout_run instance s env0 Hhead) in Hrun. cbv zeta in Hrun.
  assert (Hsame : negb (String.eqb (EnvVar_Name env0) "ONEAGENT_INSTALLER_TOKEN") = false ->
                  withInstallerToken instance = instance
                  /\ EnvVar_Name env0 = "ONEAGENT_INSTALLER_TOKEN").
  { unfold withInstallerToken.
    destruct (Spec_Env (OneAgent_Spec instance)) as [|e l]; [discriminate|].
    simpl in Hhead. inversion Hhead; subst.
    destruct (String.eqb_spec (EnvVar_Name env0) "ONEAGENT_INSTALLER_TOKEN");
      [auto|discriminate]. }
  revert Hrun. split_matches; intros H; try discriminate;
    injection H; clear H; intros; subst;
    match goal with
    | Hn : negb _ = false |- _ => destruct (Hsame Hn) as [-> ?]; split; eauto
    end.
Qed.

Lemma reconcileSetup_quiet (request : NamespacedName) (s : State World)
    (instance : OneAgent) (dtc : DtClient) (s' : State World) :
  reconcileSetup K request s = Ret (inr (instance, dtc)) s' ->
  exists evs,
    trace s' = trace s ++ evs /\ instanceWrites evs = [] /\ deletions evs = [].
Proof.
  unfold reconcileSetup. go.
  split_matches; intros H; try discriminate;
    injection H; clear H; intros; subst;
    match goal with
    | Hr : reconcileRollout _ _ _ = Ret _ _ |- _ =>
        destruct (reconcileRollout_events _ _ _ _ Hr) as (evs & Ht & Hw & Hd)
    end;
    rewrite Ht; cbn [trace]; rewrite <- !app_assoc; cbn [app];
    eexists; (split; [reflexivity|]);
    cbn [instanceWrites deletions]; split; assumption.
Qed.

(** X9.  What the version step is handed.  When the tick gets past the
    daemonset convergence, the instance it goes on with is the fetched one
    with the defaults applied and nothing else changed; it has validated, the
    name of its secret is not empty and its env list starts with
    ONEAGENT_INSTALLER_TOKEN; and so far the tick has neither written the
    custom resource nor deleted a pod. *)
Theorem reconcileSetup_handover (request : NamespacedName) (s : State World)
    (instance : OneAgent) (dtc : DtClient) (s' : State World) :
  reconcileSetup K request s = Ret (inr (instance, dtc)) s' ->
  (exists fetched,
      fst (client_Get K request (world s)) = inr fetched
      /\ instance = scheme_Default K fetched)
  /\ validate K instance = None
  /\ Spec_Tokens (OneAgent_Spec instance) <> ""
  /\ (exists env0,
        Spec_Env (OneAgent_Spec instance) !! 0%nat = Some env0
        /\ EnvVar_Name env0 = "ONEAGENT_INSTALLER_TOKEN")
  /\ exists evs,
       trace s' = trace s ++ evs /\ instanceWrites evs = [] /\ deletions evs = [].
Proof.
  unfold reconcileSetup. go.
  split_matches; intros H; try discriminate;
    injection H; clear H; intros; subst;
    match goal with
    | Hr : reconcileRollout _ _ _ = Ret _ _ |- _ =>
        destruct (reconcileRollout_events _ _ _ _ Hr) as (evs & Ht & Hw & Hd);
        apply reconcileRollout_quiet in Hr; destruct Hr as [-> Hhead]
    end;
    match goal with
    | Hq : String.eqb _ "" = false |- _ => apply String.eqb_neq in Hq
    end;
    (split; [eexists; split; [reflexivity|reflexivity]|]);
    (split; [assumption|]); (split; [assumption|]); (split; [exact Hhead|]);
    rewrite Ht; cbn [trace]; rewrite <- !app_assoc; cbn [app];
    eexists; (split; [reflexivity|]);
    cbn [instanceWrites deletions]; split; assumption.
Qed.
(** *** The shape of a wait *)

Lemma pollEvents_app (listOps : ListOptions) (l1 l2 : list (error + list Pod)) :
  pollEvents listOps (l1 ++ l2) = pollEvents listOps l1 ++ pollEvents listOps l2.
Proof. induction l1 as [|r l1 IH]; simpl; [reflexivity|]. now rewrite IH. Qed.

Lemma pollEvents_polls (listOps : ListOptions) (answers : list (error + list Pod)) :
  polls (pollEvents listOps answers) = length answers
  /\ sleeps (pollEvents listOps answers) = length answers
  /\ listAnswers (pollEvents listOps answers) = answers.
Proof.
  induction answers as [|r l (IH1 & IH2 & IH3)]; simpl; [auto|].
  rewrite IH1, IH2, IH3. auto.
Qed.

Lemma pollEvents_quiet (listOps : ListOptions) (answers : list (error + list Pod)) :
  storeWrites (pollEvents listOps answers) = []
  /\ instanceWrites (pollEvents listOps answers) = []
  /\ deletions (pollEvents listOps answers) = [].
Proof. induction answers as [|r l IH]; simpl; auto. Qed.

Lemma waitLoop_shape (fuel : nat) (T : Z) (listOps : ListOptions) (pod : Pod) :
  forall (splay : Z) (status : option error) (s : State World),
  exists answers,
    trace (final (waitLoop K fuel T listOps pod splay status s))
    = trace s ++ pollEvents listOps answers
    /\ (length answers <= fuel)%nat.
Proof.
  induction fuel as [|fuel IH]; intros splay status s.
  - exists []. simpl. rewrite app_nil_r. split; [|lia].
    now destruct (splay <? T).
  - destruct (Z.lt_ge_cases splay T) as [Hlt|Hge].
    + rewrite waitLoop_step by assumption.
      set (r := client_List K listOps _).
      destruct (fst _) as [|].
      * exists [fst r]. simpl. split; [reflexivity|lia].
      * match goal with
        | |- context [waitLoop K fuel T listOps pod ?sp ?st ?s1] =>
            destruct (IH sp st s1) as (answers & Ht & Hlen)
        end.
        exists (fst r :: answers). rewrite Ht. simpl. rewrite <- app_assoc.
        split; [reflexivity|lia].
    + rewrite waitLoop_done by assumption.
      exists []. simpl. rewrite app_nil_r. split; [reflexivity|lia].
Qed.

Lemma waitPodReadyState_shape (fuel : nat) (instance : OneAgent) (pod : Pod)
    (s : State World) :
  exists answers,
    trace (final (waitPodReadyState K fuel instance pod s))
    = trace s ++ pollEvents (listOptionsFor K instance) answers
    /\ (length answers <= fuel)%nat.
Proof.
  unfold waitPodReadyState.
  destruct (Spec_WaitReadySeconds (OneAgent_Spec instance)) as [T|].
  - apply waitLoop_shape.
  - exists []. simpl. rewrite app_nil_r. split; [reflexivity|lia].
Qed.

(** X10.  A wait only watches.  Whatever way it ends, the calls
    [waitPodReadyState] has made are list calls with the label selector of
    the instance in its namespace, each right after a sleep of 10 seconds
    and nothing else: no delete, no write. *)
Theorem waitPodReadyState_only_polls (fuel : nat) (instance : OneAgent) (pod : Pod)
    (s : State World) :
  exists answers,
    trace (final (waitPodReadyState K fuel instance pod s))
    = trace s ++
      pollEvents {| ListOptions_Namespace := OneAgent_Namespace instance;
                    ListOptions_LabelSelector := buildLabels K (OneAgent_Name instance) |}
        answers
    /\ storeWrites (pollEvents (listOptionsFor K instance) answers) = []
    /\ sleeps (pollEvents (listOptionsFor K instance) answers) = length answers
    /\ (forall ev, In ev (pollEvents (listOptionsFor K instance) answers) ->
        ev = EvSleep (10 * Second)
        \/ exists r, ev = EvList (listOptionsFor K instance) r).
Proof.
  destruct (waitPodReadyState_shape fuel instance pod s) as (answers & Ht & _).
  exists answers. split; [exact Ht|].
  split; [apply pollEvents_quiet|]. split; [apply pollEvents_polls|].
  clear Ht. induction answers as [|r l IH]; simpl; [tauto|].
  intros ev [<-|[<-|Hin]];
    [left; reflexivity | right; eexists; reflexivity | now apply IH].
Qed.

(** X11.  For a timeout of at most 65530 seconds the wait ends: given room
    for ceil(T/10) iterations [waitPodReadyState] returns, after at most
    ceil(T/10) polls, each after a sleep of 10 seconds. *)
Theorem waitPodReadyState_within_timeout (fuel : nat) (instance : OneAgent) (pod : Pod)
    (T : Z) (s : State World) :
  Spec_WaitReadySeconds (OneAgent_Spec instance) = Some T ->
  0 <= T <= 65530 ->
  (Z.to_nat ((T + 9) / 10) <= fuel)%nat ->
  exists r s' answers,
    waitPodReadyState K fuel instance pod s = Ret r s'
    /\ trace s' = trace s ++ pollEvents (listOptionsFor K instance) answers
    /\ 10 * Z.of_nat (length answers) < T + 10.
Proof.
  intros HT Hrange Hfuel.
  destruct (waitPodReadyState_shape fuel instance pod s) as (answers & Ht & _).
  unfold waitPodReadyState in *. rewrite HT in *.
  destruct (waitLoop_terminates K T (listOptionsFor K instance) pod
              (Z.to_nat ((T + 9) / 10)) fuel 0 None s)
    as (r & s' & evs & Hr & Htr & Hp & _); try lia.
  - reflexivity.
  - pose proof (Z.div_mod (T + 9) 10). pose proof (Z.mod_pos_bound (T + 9) 10).
    assert (0 <= (T + 9) / 10) by (apply Z.div_pos; lia). lia.
  - rewrite Hr in Ht. simpl in Ht. rewrite Htr in Ht. apply app_inv_head in Ht. subst evs.
    destruct (pollEvents_polls (listOptionsFor K instance) answers) as (Hpolls & _).
    rewrite Hpolls in Hp.
    exists r, s', answers. split; [exact Hr|]. split; [exact Htr|].
    pose proof (Z.div_mod (T + 9) 10). pose proof (Z.mod_pos_bound (T + 9) 10).
    assert (0 <= (T + 9) / 10) by (apply Z.div_pos; lia). lia.
Qed.

Lemma waitLoop_last_verdict (fuel : nat) (T : Z) (listOps : ListOptions) (pod : Pod) :
  forall (splay : Z) (status r : option error) (s s' : State World),
    waitLoop K fuel T listOps pod splay status s = Ret r s' ->
    (s' = s /\ r = status /\ T <= splay)
    \/ (exists answers answer,
          trace s' = trace s ++ pollEvents listOps (answers ++ [answer])
          /\ r = statusAfterPoll K pod answer).
Proof.
  induction fuel as [|fuel IH]; intros splay status r s s' Hrun.
  - simpl in Hrun. destruct (Z.ltb_spec splay T); [discriminate|].
    injection Hrun as <- <-. auto.
  - destruct (Z.lt_ge_cases splay T) as [Hlt|Hge].
    + rewrite waitLoop_step in Hrun by assumption.
      set (a := client_List K listOps _) in Hrun.
      right.
      assert (Hcases :
                Ret (statusAfterPoll K pod (fst a)) (afterPoll listOps s (fst a) (snd a))
                = Ret r s'
                \/ waitLoop K fuel T listOps pod (uint16_add splay splayTimeSeconds)
                     (statusAfterPoll K pod (fst a)) (afterPoll listOps s (fst a) (snd a))
                   = Ret r s').
      { destruct (fst a) as [err|items]; cbn [fst snd] in Hrun; [now right|].
        unfold statusAfterPoll.
        destruct (judgePods K pod items) as [[|] st]; cbn [fst snd] in *;
          [now left|now right]. }
      destruct Hcases as [Hnow|Hlater].
      * injection Hnow as <- <-. exists [], (fst a). split; reflexivity.
      * apply IH in Hlater.
        destruct Hlater as [(-> & -> & _)|(answers & answer & Ht & Hr)].
        -- exists [], (fst a). split; reflexivity.
        -- exists (fst a :: answers), answer. split; [|exact Hr].
           rewrite Ht. simpl. now rewrite <- app_assoc.
    + rewrite waitLoop_done in Hrun by assumption. injection Hrun as <- <-. auto.
Qed.

(** X12.  With a timeout above zero, what [waitPodReadyState] returns is the
    verdict of its last poll alone: the error of the list call when that
    failed, else what the pods listed give (nil for exactly one running
    replacement on the node, ready or not).  The errors of earlier polls are
    forgotten. *)
Theorem waitPodReadyState_returns_last_verdict (fuel : nat) (instance : OneAgent)
    (pod : Pod) (T : Z) (s : State World) (r : option error) (s' : State World) :
  Spec_WaitReadySeconds (OneAgent_Spec instance) = Some T -> 0 < T ->
  waitPodReadyState K fuel instance pod s = Ret r s' ->
  exists answers answer,
    trace s' = trace s ++ pollEvents (listOptionsFor K instance) (answers ++ [answer])
    /\ r = match answer with
           | inl err => Some err
           | inr items =>
               match length (candidatePods pod items) with
               | 0%nat =>
                   Some (Errorf "waiting for pod to be recreated on node: %s"
                           [VStr (Pod_NodeName pod)])
               | 1%nat => None
               | n =>
                   Some (Errorf "too many pods found: expected=1 actual=%d"
                           [VInt (Z.of_nat n)])
               end
           end.
Proof.
  intros HT Hpos Hrun. unfold waitPodReadyState in Hrun. rewrite HT in Hrun.
  apply waitLoop_last_verdict in Hrun.
  destruct Hrun as [(_ & _ & Hle)|(answers & answer & Ht & Hr)]; [lia|].
  exists answers, answer. split; [exact Ht|]. subst r.
  destruct answer as [err|items]; [reflexivity|].
  unfold statusAfterPoll, judgePods. rewrite foundPods_candidatePods.
  destruct (candidatePods pod items) as [|p [|q l]]; simpl; try reflexivity.
  now destruct (getPodReadyState K p).
Qed.

(** *** What the rollout and the version step do to the store *)

Lemma storeWrites_app (l1 l2 : list Event) :
  storeWrites (l1 ++ l2) = storeWrites l1 ++ storeWrites l2.
Proof.
  induction l1 as [|ev l1 IH]; simpl; [reflexivity|].
  destruct (isStoreWrite ev); simpl; now rewrite IH.
Qed.

Lemma deletePods_events (fuel : nat) (instance : OneAgent) (pods : list Pod) :
  forall s : State World,
  exists evs k,
    trace (final (deletePods K fuel instance pods s)) = trace s ++ evs
    /\ deletions evs = take k pods
    /\ instanceWrites evs = []
    /\ storeWrites evs = map EvDelete (deletions evs).
Proof.
  induction pods as [|pod pods IH]; intros s.
  - exists [], 0%nat. simpl. now rewrite app_nil_r.
  - rewrite deletePods_cons. cbv zeta.
    set (deleting := EvInfo "deleting pod" _).
    set (waiting := EvInfo "waiting until pod is ready on node" _).
    set (recreated := EvInfo "pod recreated successfully on node" _).
    destruct (client_Delete K pod (world s)) as [[e|] w]; cbn [fst snd].
    + exists [deleting; EvDelete pod], 1%nat. simpl. now rewrite take_0.
    + set (s1 := {| world := w; trace := _ |}).
      destruct (waitPodReadyState_shape fuel instance pod s1) as (answers & Ht & _).
      destruct (pollEvents_quiet (listOptionsFor K instance) answers) as (Hq1 & Hq2 & Hq3).
      assert (Hstop : forall o : outcome World (option error),
                 trace (final o) = trace s1 ++ pollEvents (listOptionsFor K instance) answers ->
                 exists evs k,
                   trace (final o) = trace s ++ evs
                   /\ deletions evs = take k (pod :: pods)
                   /\ instanceWrites evs = []
                   /\ storeWrites evs = map EvDelete (deletions evs)).
      { intros o Ho.
        exists ([deleting; EvDelete pod; waiting]
                ++ pollEvents (listOptionsFor K instance) answers), 1%nat.
        rewrite Ho. subst s1. cbn [trace]. rewrite <- app_assoc.
        split; [reflexivity|].
        rewrite deletions_app, instanceWrites_app, storeWrites_app, Hq1, Hq2, Hq3.
        simpl. now rewrite take_0. }
      destruct (waitPodReadyState K fuel instance pod s1) as [[e|] s'|msg s'|s'] eqn:Ew;
        try (apply Hstop; exact Ht).
      cbn [final] in Ht.
      destruct (IH {| world := world s'; trace := trace s' ++ [recreated] |})
        as (evs & k & HtR & Hd & Hi & Hw).
      exists ([deleting; EvDelete pod; waiting]
              ++ pollEvents (listOptionsFor K instance) answers ++ [recreated] ++ evs),
        (S k).
      split.
      { rewrite HtR. cbn [trace]. rewrite Ht. subst s1. cbn [trace].
        now rewrite <- !app_assoc. }
      rewrite !deletions_app, !instanceWrites_app, !storeWrites_app, Hq1, Hq2, Hq3.
      simpl. rewrite Hd, Hi, Hw, Hd. auto.
Qed.

Ltac status_differs :=
  let Heq := fresh "Heq" in
  let Hv := fresh "Hv" in
  let Hi := fresh "Hi" in
  intros Heq;
  pose proof (f_equal Status_Version Heq) as Hv;
  pose proof (f_equal Status_Items Heq) as Hi;
  cbn in Hv, Hi;
  repeat match goal with
         | H : _ && _ = true |- _ => apply andb_true_iff in H; destruct H
         | H : negb _ = true |- _ => apply negb_true_iff in H
         | H : String.eqb _ _ = false |- _ => apply String.eqb_neq in H
         | H : bool_decide _ = false |- _ => apply bool_decide_eq_false in H
         end;
  congruence.

(** X13.  [reconcileVersion] asks for the custom resource to be updated
    exactly when it has changed the status of the instance in memory (the
    recorded version or the map of pod instances); it never touches the
    name, the namespace, the spec or the timestamp of the status, and this
    holds whether it returns an error or not. *)
Theorem reconcileVersion_flag_iff_status_changed (fuel : nat) (instance : OneAgent)
    (dtc : DtClient) (s : State World) (instance' : OneAgent) (updateCR' : bool)
    (err : option error) (s' : State World) :
  reconcileVersion K fuel instance dtc s = Ret (instance', updateCR', err) s' ->
  OneAgent_Name instance' = OneAgent_Name instance
  /\ OneAgent_Namespace instance' = OneAgent_Namespace instance
  /\ OneAgent_Spec instance' = OneAgent_Spec instance
  /\ Status_UpdatedTimestamp (OneAgent_Status instance')
     = Status_UpdatedTimestamp (OneAgent_Status instance)
  /\ (updateCR' = true <-> OneAgent_Status instance' <> OneAgent_Status instance).
Proof.
  unfold reconcileVersion. go.
  split_matches; intros H; try discriminate; injection H; clear H; intros; subst;
    (split; [reflexivity|]); (split; [reflexivity|]); (split; [reflexivity|]);
    (split; [reflexivity|]);
    (split;
     [ first [ discriminate | intros _; status_differs ]
     | first [ reflexivity | intros Hn; exfalso; now apply Hn ] ]).
Qed.

(** X14.  When the query for the latest version answers, the version of the
    instance [reconcileVersion] returns is the answer, unless the answer is
    the empty string, which is never recorded; and it is so also when the
    listing of the pods or the rollout fails afterwards. *)
Theorem reconcileVersion_records_version (fuel : nat) (instance : OneAgent)
    (dtc : DtClient) (s : State World) (desired : string) (w1 : World)
    (instance' : OneAgent) (updateCR' : bool) (err : option error) (s' : State World) :
  GetVersionForLatest K dtc (world s) = (inr desired, w1) ->
  reconcileVersion K fuel instance dtc s = Ret (instance', updateCR', err) s' ->
  Status_Version (OneAgent_Status instance')
  = if String.eqb desired "" then Status_Version (OneAgent_Status instance) else desired.
Proof.
  intros Hq. unfold reconcileVersion. go. rewrite Hq. cbn [fst snd].
  destruct (String.eqb_spec desired "") as [->|Hne]; cbn [negb andb];
    [|destruct (String.eqb_spec (Status_Version (OneAgent_Status instance)) desired)
        as [Heq|Hneq]; cbn [negb andb]];
    go; split_matches; intros H; try discriminate; injection H; clear H; intros; subst;
    first [reflexivity | assumption].
Qed.

Ltac tidy_events :=
  cbn [app instanceWrites storeWrites isStoreWrite deletions map];
  rewrite ?instanceWrites_app, ?storeWrites_app, ?deletions_app, ?map_app;
  cbn [app instanceWrites storeWrites isStoreWrite deletions map];
  rewrite ?app_nil_r.

Lemma reconcileVersion_events (fuel : nat) (instance : OneAgent) (dtc : DtClient)
    (s : State World) :
  exists evs,
    trace (final (reconcileVersion K fuel instance dtc s)) = trace s ++ evs
    /\ instanceWrites evs = []
    /\ storeWrites evs = map EvDelete (deletions evs).
Proof.
  unfold reconcileVersion. go.
  split_matches; cbn [final trace];
    try match goal with
        | H : deletePods K ?f ?i ?p ?s0 = _ |- _ =>
            destruct (deletePods_events f i p s0) as (evsD & k & Ht & Hd & Hi & Hw);
            rewrite H in Ht; cbn [final trace] in Ht; rewrite Ht
        end;
    rewrite <- ?app_assoc; eexists; (split; [reflexivity|]);
    tidy_events; rewrite ?Hi, ?Hw; tidy_events; auto.
Qed.

(** X15.  The version step deletes stale pods only.  When the query for
    the latest version answers, the only calls of [reconcileVersion] that
    change the store are deletes; they are made for a prefix, in order, of
    the pods [getPodsToRestart] has returned for the pods listed, and none
    is made when the listing fails.  The custom resource is not written. *)
Theorem reconcileVersion_deletes_only_stale (fuel : nat) (instance : OneAgent)
    (dtc : DtClient) (s : State World) (desired : string) (w1 : World) :
  let instance1 :=
    if negb (String.eqb desired "")
       && negb (String.eqb (Status_Version (OneAgent_Status instance)) desired)
    then withStatus instance (withVersion (OneAgent_Status instance) desired)
    else instance in
  GetVersionForLatest K dtc (world s) = (inr desired, w1) ->
  exists evs,
    trace (final (reconcileVersion K fuel instance dtc s)) = trace s ++ evs
    /\ storeWrites evs = map EvDelete (deletions evs)
    /\ match client_List K (listOptionsFor K instance1) w1 with
       | (inl _, _) => deletions evs = []
       | (inr items, w2) =>
           exists k,
             deletions evs = take k (fst (fst (getPodsToRestart K items dtc instance1 w2)))
       end.
Proof.
  intros instance1 Hq. subst instance1. unfold reconcileVersion. go.
  rewrite Hq. cbn [fst snd].
  destruct (negb (String.eqb desired "")
            && negb (String.eqb (Status_Version (OneAgent_Status instance)) desired));
    go;
    (destruct (client_List K _ w1) as [[e|items] w2]; cbn [world trace fst snd final];
     [ rewrite <- ?app_assoc; eexists; (split; [reflexivity|]); tidy_events; auto
     | destruct (getPodsToRestart K items dtc _ w2) as [[stale insts] w3];
       cbn [world trace fst snd];
       match goal with
       | |- context [negb (@bool_decide ?P ?d)] => destruct (negb (@bool_decide P d))
       end; cbn [world trace fst snd];
       match goal with
       | |- context [deletePods K ?f ?i ?p ?s0] =>
           destruct (deletePods_events f i p s0) as (evsD & k & Ht & Hd & Hi & Hw);
           destruct (deletePods K f i p s0) as [[e|] sD|msg sD|sD];
           cbn [final trace] in *; rewrite Ht
       end;
       rewrite <- ?app_assoc; eexists; (split; [reflexivity|]);
       tidy_events; rewrite ?Hw; tidy_events; (split; [reflexivity|]);
       exists k; exact Hd ]).
Qed.

(** X16.  The steady state.  When updates are enabled, the vendor API
    answers with the recorded version (or with the empty string), the pods
    can be listed, none is stale and the map of pod instances is the
    recorded one, the tick ends after these three reads without a single
    write to the store, without error, asking to be requeued after 30
    minutes. *)
Theorem reconcileUpdate_steady_state (fuel : nat) (instance : OneAgent) (dtc : DtClient)
    (s : State World) (desired : string) (w1 : World) (items : list Pod) (w2 : World)
    (instances : option (gmap string OneAgentInstance)) (w3 : World) :
  Spec_DisableAgentUpdate (OneAgent_Spec instance) = false ->
  GetVersionForLatest K dtc (world s) = (inr desired, w1) ->
  desired = "" \/ desired = Status_Version (OneAgent_Status instance) ->
  client_List K (listOptionsFor K instance) w1 = (inr items, w2) ->
  getPodsToRestart K items dtc instance w2 = (([], instances), w3) ->
  instances = Status_Items (OneAgent_Status instance) ->
  reconcileUpdate K fuel instance dtc s =
    Ret ({| Requeue := false; RequeueAfter := 30 * Minute |}, None)
      {| world := w3;
         trace := trace s ++
           [EvGetVersion; EvList (listOptionsFor K instance) (inr items);
            EvGetPodsToRestart; EvInfo "pods to delete" [("count", VInt 0)]] |}.
Proof.
  intros Hflag Hq Hsame Hl Hg Hi.
  unfold reconcileUpdate. rewrite Hflag. unfold reconcileVersion. go.
  rewrite Hq. cbn [fst snd].
  assert (Hnot : negb (String.eqb desired "")
                 && negb (String.eqb (Status_Version (OneAgent_Status instance)) desired)
                 = false).
  { destruct Hsame as [->| ->]; [reflexivity|].
    rewrite String.eqb_refl. apply andb_false_r. }
  rewrite Hnot. go. rewrite Hl. go. rewrite Hg. go.
  rewrite bool_decide_eq_true_2 by exact Hi. cbn [negb]. go.
  cbn [deletePods length Z.of_nat]. go. rewrite <- !app_assoc. reflexivity.
Qed.

(** X17.  An error of the version convergence ends the tick with that
    error, in the state the version convergence ended in: [updateCR] is not
    called, and the tick as a whole has made no write to the custom
    resource, so that a version or a set of pod instances recorded in the
    instance in memory is not persisted in that tick. *)
Theorem Reconcile_version_error_not_persisted (fuel : nat) (request : NamespacedName)
    (s : State World) (instance : OneAgent) (dtc : DtClient) (s1 : State World)
    (instance' : OneAgent) (updateCR' : bool) (e : error) (s2 : State World) :
  reconcileSetup K request s = Ret (inr (instance, dtc)) s1 ->
  Spec_DisableAgentUpdate (OneAgent_Spec instance) = false ->
  reconcileVersion K fuel instance dtc s1 = Ret (instance', updateCR', Some e) s2 ->
  Reconcile K fuel request s = Ret ({| Requeue := false; RequeueAfter := 0 |}, Some e) s2
  /\ exists evs, trace s2 = trace s ++ evs /\ instanceWrites evs = [].
Proof.
  intros Hsetup Hflag Hv. split.
  - unfold Reconcile, bind. rewrite Hsetup.
    unfold reconcileUpdate. rewrite Hflag. unfold bind. now rewrite Hv.
  - destruct (reconcileSetup_quiet _ _ _ _ _ Hsetup) as (evs1 & Ht1 & Hw1 & _).
    destruct (reconcileVersion_events fuel instance dtc s1) as (evs2 & Ht2 & Hw2 & _).
    rewrite Hv in Ht2. cbn [final] in Ht2.
    exists (evs1 ++ evs2). rewrite Ht2, Ht1, <- app_assoc. split; [reflexivity|].
    now rewrite instanceWrites_app, Hw1, Hw2.
Qed.

(** *** Persisting the instance *)

(** X18.  What [updateCR] sends.  The spec write comes first and carries
    the instance with an empty status; the status write is made only when
    the spec write has succeeded, on the object the spec write has left,
    with its status replaced by the status the caller had, stamped with the
    time read at the start: whatever status the spec write has put into the
    object is not sent back.  [updateCR] returns nil exactly when both
    writes have succeeded, and makes no other change to the store. *)
Theorem updateCR_writes (instance : OneAgent) (s : State World) :
  let now := fst (metav1_Now K (world s)) in
  let first := client_Update K (withStatus instance emptyStatus) (snd (metav1_Now K (world s))) in
  let saved :=
    {| Status_Version := Status_Version (OneAgent_Status instance);
       Status_Items := Status_Items (OneAgent_Status instance);
       Status_UpdatedTimestamp := now |} in
  let resent :=
    {| OneAgent_Name := OneAgent_Name (fst (fst first));
       OneAgent_Namespace := OneAgent_Namespace (fst (fst first));
       OneAgent_Spec := OneAgent_Spec (fst (fst first));
       OneAgent_Status := saved |} in
  let second := client_StatusUpdate K resent (snd first) in
  exists instance' r s' evs,
    updateCR K instance s = Ret (instance', r) s'
    /\ trace s' = trace s ++ evs
    /\ storeWrites evs
       = EvUpdate (withStatus instance emptyStatus)
         :: match snd (fst first) with
            | Some _ => []
            | None => [EvStatusUpdate resent]
            end
    /\ (r = None <-> snd (fst first) = None /\ snd (fst second) = None).
Proof.
  intros now first saved resent second. subst second resent saved first now.
  rewrite updateCR_run. cbv zeta. unfold withStatus at 3 5 6, withUpdatedTimestamp.
  destruct (metav1_Now K (world s)) as [now w0]. cbn [fst snd].
  destruct (client_Update K _ w0) as [[o1 [e|]] w1]; cbn [fst snd].
  - eexists _, _, _, _. split; [reflexivity|]. cbn [trace]. split; [reflexivity|].
    split; [reflexivity|]. split; [discriminate|]. intros [H _]. discriminate.
  - destruct (client_StatusUpdate K _ w1) as [[o2 r2] w2]; cbn [fst snd].
    eexists _, _, _, _. split; [reflexivity|]. cbn [trace]. split; [reflexivity|].
    split; [reflexivity|]. tauto.
Qed.

Lemma updateCR_events (instance : OneAgent) (s : State World) (instance' : OneAgent)
    (r : option error) (s' : State World) :
  updateCR K instance s = Ret (instance', r) s' ->
  exists evs,
    trace s' = trace s ++ evs
    /\ deletions evs = []
    /\ ((exists o, instanceWrites evs = [EvUpdate o] /\ r <> None)
        \/ (exists o o', instanceWrites evs = [EvUpdate o; EvStatusUpdate o'])).
Proof.
  rewrite updateCR_run. cbv zeta.
  destruct (snd (fst (client_Update K _ _))) as [e|].
  - intros [= <- <- <-]. eexists. cbn [trace]. split; [reflexivity|].
    split; [reflexivity|]. left. eexists. split; [reflexivity|discriminate].
  - destruct (client_StatusUpdate K _ _) as [[o2 r2] w2]; cbn [fst snd].
    intros [= <- <- <-]. eexists. cbn [trace]. split; [reflexivity|].
    split; [reflexivity|]. right. eexists _, _. reflexivity.
Qed.

Ltac finish_writes :=
  match goal with
  | |- _ \/ _ =>
      first
        [ left; reflexivity
        | match goal with
          | Hw : _ \/ _ |- _ =>
              let Hw1 := fresh "Hw1" in
              let Hr := fresh "Hr" in
              destruct Hw as [(? & Hw1 & Hr)|(? & ? & Hw1)]; rewrite Hw1;
              [ first [ right; left; eexists; split; [reflexivity|discriminate]
                      | exfalso; apply Hr; reflexivity ]
              | right; right; eexists _, _; reflexivity ]
          end ]
  | |- _ -> _ =>
      let Hx := fresh "Hx" in
      intros Hx;
      first
        [ vm_compute in Hx; discriminate
        | reflexivity
        | split; [reflexivity|];
          match goal with
          | Hw : _ \/ _ |- _ =>
              let Hw1 := fresh "Hw1" in
              let Hr := fresh "Hr" in
              destruct Hw as [(? & Hw1 & Hr)|(? & ? & Hw1)];
              [ exfalso; apply Hr; reflexivity
              | rewrite Hw1; eexists _, _; reflexivity ]
          end ]
  end.

(** X19.  A tick writes the custom resource at most once.  The writes of a
    tick to the instance are none at all, or those of one [updateCR]: the
    spec write, followed by the status write unless the spec write failed.
    A tick that asks to be requeued after 30 minutes has not written the
    instance; a tick that asks to be requeued after 5 minutes has made both
    writes and returns no error. *)
Theorem Reconcile_writes_instance_at_most_once (fuel : nat) (request : NamespacedName)
    (s : State World) (res : Result) (err : option error) (s' : State World) :
  Reconcile K fuel request s = Ret (res, err) s' ->
  exists evs,
    trace s' = trace s ++ evs
    /\ (instanceWrites evs = []
        \/ (exists o, instanceWrites evs = [EvUpdate o] /\ err <> None)
        \/ (exists o o', instanceWrites evs = [EvUpdate o; EvStatusUpdate o']))
    /\ (RequeueAfter res = 30 * Minute -> instanceWrites evs = [])
    /\ (RequeueAfter res = 5 * Minute ->
        err = None /\ exists o o', instanceWrites evs = [EvUpdate o; EvStatusUpdate o']).
Proof.
  unfold Reconcile, reconcileSetup, reconcileUpdate. go.
  split_matches; intros H; try discriminate; injection H; clear H; intros; subst;
    repeat match goal with
           | H : updateCR K _ _ = Ret (_, _) _ |- _ =>
               apply updateCR_events in H;
               let evs := fresh "evsU" in
               let Ht := fresh "HtU" in
               let Hw := fresh "HwU" in
               destruct H as (evs & Ht & _ & Hw); cbn [trace] in Ht
           | H : reconcileRollout K _ _ = Ret _ _ |- _ =>
               apply reconcileRollout_events in H;
               let evs := fresh "evsR" in
               let Ht := fresh "HtR" in
               let Hw := fresh "HwR" in
               destruct H as (evs & Ht & Hw & _); cbn [trace] in Ht
           | H : reconcileVersion K ?f ?i ?d ?s0 = Ret _ _ |- _ =>
               let Hx := fresh "Hx" in
               let evs := fresh "evsV" in
               let Ht := fresh "HtV" in
               let Hw := fresh "HwV" in
               pose proof (reconcileVersion_events f i d s0) as Hx;
               rewrite H in Hx; cbn [final trace] in Hx; clear H;
               destruct Hx as (evs & Ht & Hw & _)
           end;
    cbn [trace];
    repeat match goal with
           | H : trace ?x = _ |- context [trace ?x] => rewrite H
           end;
    rewrite <- ?app_assoc; cbn [app]; eexists; (split; [reflexivity|]);
    tidy_events;
    repeat match goal with
           | H : instanceWrites _ = [] |- _ => rewrite H
           end;
    cbn [app]; cbn [RequeueAfter noRequeue requeueNow requeueAfter];
    (split; [|split]); finish_writes.
Qed.

(** *** Edges of the rollout and of the desired daemonset *)

(** X20.  A readiness timeout that is not set is not noticed before the
    first pod is gone: with [WaitReadySeconds] nil, [deletePods] deletes the
    first pod of the list and then panics on the nil pointer, before any
    poll and with the rest of the list untouched. *)
Theorem deletePods_nil_timeout_panics (fuel : nat) (instance : OneAgent) (pod : Pod)
    (pods : list Pod) (s : State World) (w : World) :
  Spec_WaitReadySeconds (OneAgent_Spec instance) = None ->
  client_Delete K pod (world s) = (None, w) ->
  exists s',
    deletePods K fuel instance (pod :: pods) s = Panic "nil pointer dereference" s'
    /\ world s' = w
    /\ deletions (trace s') = deletions (trace s) ++ [pod]
    /\ polls (trace s') = polls (trace s).
Proof.
  intros HT Hdel. rewrite deletePods_cons. cbv zeta. rewrite Hdel. cbn [fst snd].
  unfold waitPodReadyState. rewrite HT. unfold panic.
  eexists. split; [reflexivity|]. cbn [world trace]. split; [reflexivity|].
  rewrite deletions_app, polls_app. simpl. split; [reflexivity|lia].
Qed.

(** X21.  The daemonset built for the instance [reconcileRollout] leaves has
    one container, whose env list starts with ONEAGENT_INSTALLER_TOKEN, the
    rest being the env list of the instance as it was when the entry had to
    be put in; its selector is the label set of its pod template; and it
    does not depend on the status of the instance. *)
Theorem desired_daemonset_env (instance : OneAgent) (env0 : EnvVar) :
  Spec_Env (OneAgent_Spec instance) !! 0%nat = Some env0 ->
  let ds := newDaemonSetForCR K (withInstallerToken instance) in
  (exists c env1 rest,
      PodSpec_Containers (DSSpec_TemplateSpec (DaemonSet_Spec ds)) = [c]
      /\ Container_Env c = env1 :: rest
      /\ EnvVar_Name env1 = "ONEAGENT_INSTALLER_TOKEN"
      /\ (EnvVar_Name env0 <> "ONEAGENT_INSTALLER_TOKEN" ->
          rest = Spec_Env (OneAgent_Spec instance)
          /\ EnvVar_ValueFrom env1
             = Some {| SecretKeySelector_Name := Spec_Tokens (OneAgent_Spec instance);
                       SecretKeySelector_Key := "paasToken" |}))
  /\ DSSpec_Selector (DaemonSet_Spec ds) = DSSpec_TemplateLabels (DaemonSet_Spec ds)
  /\ (forall st,
        newDaemonSetForCR K (withInstallerToken (withStatus instance st)) = ds).
Proof.
  intros Hhead ds. subst ds. unfold withInstallerToken.
  destruct (Spec_Env (OneAgent_Spec instance)) as [|e l] eqn:E; [discriminate|].
  simpl in Hhead. injection Hhead as ->.
  split; [|split; [reflexivity|]].
  - destruct (String.eqb_spec (EnvVar_Name env0) "ONEAGENT_INSTALLER_TOKEN") as [Heq|Hne].
    + eexists _, env0, l. cbn. rewrite E. split; [reflexivity|].
      split; [reflexivity|]. split; [exact Heq|]. intros Hne. contradiction.
    + eexists _, _, _. cbn. split; [reflexivity|]. split; [reflexivity|].
      split; [reflexivity|]. intros _. split; reflexivity.
  - intros st. cbn [withStatus OneAgent_Spec]. rewrite E.
    now destruct (String.eqb _ _).
Qed.

End MoreFacts.

Section VendorClientFacts.

Context {World DtClient : Type}.
Variable B : SecretCollaborators World DtClient.

(** X22.  [getSecret] reports an error exactly when the Get on the secret
    answers not-found, and then returns an empty secret.  Any other error of
    the Get is dropped: the secret is returned as the Get has left it,
    without error. *)
Theorem getSecret_error_iff_not_found (name namespace : string) (w : World) :
  let g := client_GetSecret B {| NN_Namespace := namespace; NN_Name := name |} w in
  let r := getSecret B name namespace w in
  snd r = snd g
  /\ (snd (fst r) <> None <-> exists e, snd (fst g) = Some e /\ IsNotFound e = true)
  /\ (snd (fst r) <> None -> snd (fst r) = snd (fst g) /\ fst (fst r) = emptySecret)
  /\ (snd (fst r) = None -> fst (fst r) = fst (fst g)).
Proof.
  intros g r. subst r g. unfold getSecret.
  destruct (client_GetSecret B _ w) as [[secret [e|]] w']; cbn [fst snd].
  - destruct (IsNotFound e) eqn:E; cbn [fst snd].
    + split; [reflexivity|]. split; [split; eauto; discriminate|].
      split; [auto|discriminate].
    + split; [reflexivity|]. split.
      * split; [intros H; now elim H|]. intros (e' & [= <-] & H). congruence.
      * split; [intros H; now elim H|reflexivity].
  - split; [reflexivity|]. split.
    + split; [intros H; now elim H|]. intros (e' & H & _). discriminate.
    + split; [intros H; now elim H|reflexivity].
Qed.

(** X23.  [buildDynatraceClient] looks the secret up under the name
    [Spec.Tokens] in the namespace of the instance.  It fails with the error
    of the lookup when the secret is not found and with the error of
    [verifySecret] when the secret does not verify; otherwise its result is
    that of the constructor of the vendor client, called with the API URL,
    the values [getToken] gives for "apiToken" and "paasToken", whose errors
    are ignored, and the certificate flag.  A lookup that fails otherwise
    than by not-found does not stop it.  The only call to the outside is the
    lookup. *)
Theorem buildDynatraceClient_outcomes (instance : OneAgent) (w : World) :
  let g :=
    client_GetSecret B
      {| NN_Namespace := OneAgent_Namespace instance;
         NN_Name := Spec_Tokens (OneAgent_Spec instance) |} w in
  let secret := fst (fst g) in
  buildDynatraceClient B instance w =
    (match snd (fst g) with
     | Some e =>
         if IsNotFound e then inl e
         else
           match verifySecret B secret with
           | Some e' => inl e'
           | None =>
               dtclient_NewClient B (Spec_ApiUrl (OneAgent_Spec instance))
                 (fst (getToken B secret "apiToken")) (fst (getToken B secret "paasToken"))
                 (Spec_SkipCertCheck (OneAgent_Spec instance))
           end
     | None =>
         match verifySecret B secret with
         | Some e' => inl e'
         | None =>
             dtclient_NewClient B (Spec_ApiUrl (OneAgent_Spec instance))
               (fst (getToken B secret "apiToken")) (fst (getToken B secret "paasToken"))
               (Spec_SkipCertCheck (OneAgent_Spec instance))
         end
     end, snd g).
Proof.
  intros g secret. subst secret g. unfold buildDynatraceClient, getSecret.
  destruct (client_GetSecret B _ w) as [[secret [e|]] w']; cbn [fst snd].
  - destruct (IsNotFound e); [reflexivity|].
    destruct (verifySecret B secret); [reflexivity|].
    unfold dynatraceApiToken, dynatracePaasToken.
    destruct (getToken B secret "apiToken"), (getToken B secret "paasToken"). reflexivity.
  - destruct (verifySecret B secret); [reflexivity|].
    unfold dynatraceApiToken, dynatracePaasToken.
    destruct (getToken B secret "apiToken"), (getToken B secret "paasToken"). reflexivity.
Qed.

End VendorClientFacts.

(** ** Further runs on the simulated cluster *)

(** The daemonset convergence on an instance whose env list holds a proxy
    only: the installer token is put in front and the update of the custom
    resource is asked for. *)
Lemma reconcileRollout_installer_token_witness :
  exists s',
    reconcileRollout Sim.K Scenario.agentWithProxy
      (Sim.start (Sim.cluster Scenario.agentWithProxy []))
    = Ret (withInstallerToken Scenario.agentWithProxy, true, None) s'
    /\ Spec_Env (OneAgent_Spec (withInstallerToken Scenario.agentWithProxy))
       = [installerTokenEnv "oneagent"; Scenario.proxyEnv].
Proof.
  eexists. split; [sim|].
  refine (proj2 (proj1 (proj2 (proj2
            (reconcileRollout_installer_token Sim.K Scenario.agentWithProxy
               (Sim.start (Sim.cluster Scenario.agentWithProxy []))
               (withInstallerToken Scenario.agentWithProxy) true None _ _))) eq_refl)).
  sim.
Defined.

(** A second run, on the instance and in the state the first has left. *)
Lemma reconcileRollout_injects_once_witness :
  exists s' s2',
    reconcileRollout Sim.K Scenario.agentWithProxy
      (Sim.start (Sim.cluster Scenario.agentWithProxy []))
    = Ret (withInstallerToken Scenario.agentWithProxy, true, None) s'
    /\ reconcileRollout Sim.K (withInstallerToken Scenario.agentWithProxy) s'
       = Ret (withInstallerToken Scenario.agentWithProxy, false, None) s2'
    /\ withInstallerToken Scenario.agentWithProxy = withInstallerToken Scenario.agentWithProxy
    /\ false = false.
Proof.
  eexists _, _. split; [sim|].
  match goal with
  | |- reconcileRollout _ _ ?st = _ /\ _ =>
      split; [sim|];
      eapply (reconcileRollout_injects_once Sim.K Scenario.agentWithProxy
                (Sim.start (Sim.cluster Scenario.agentWithProxy [])) _ _ _ _ st)
  end.
  - sim.
  - sim.
Defined.

(** With no daemonset in the cluster, the one write is the creation. *)
Lemma reconcileRollout_store_writes_witness :
  Spec_Env (OneAgent_Spec Scenario.agentWithProxy) !! 0%nat = Some Scenario.proxyEnv
  /\ exists r s' evs ds,
       reconcileRollout Sim.K Scenario.agentWithProxy
         (Sim.start (Sim.cluster Scenario.agentWithProxy []))
       = Ret r s'
       /\ trace s' = [] ++ evs
       /\ storeWrites evs = [EvCreate ds]
       /\ DaemonSet_Name ds = "oneagent".
Proof.
  split; [reflexivity|].
  destruct (reconcileRollout_store_writes Sim.K Scenario.agentWithProxy
              (Sim.start (Sim.cluster Scenario.agentWithProxy [])) Scenario.proxyEnv eq_refl)
    as (r & s' & evs & Hrun & Ht & Hw).
  vm_compute in Hw.
  eexists r, s', evs, _. split; [exact Hrun|]. split; [exact Ht|].
  split; [exact Hw|]. reflexivity.
Defined.

(** The instance is gone. *)
Lemma Reconcile_fetch_failure_witness :
  client_Get Sim.K Sim.request
    (world (Sim.start (Scenario.clusterWithout (NotFound "oneagents"))))
  = (inl (NotFound "oneagents"), Scenario.clusterWithout (NotFound "oneagents"))
  /\ Reconcile Sim.K 0 Sim.request (Sim.start (Scenario.clusterWithout (NotFound "oneagents")))
     = Ret ({| Requeue := false; RequeueAfter := 0 |}, None)
         {| world := Scenario.clusterWithout (NotFound "oneagents");
            trace := [EvInfo "reconciling oneagent" []; EvGet Sim.request] |}.
Proof.
  split; [reflexivity|].
  apply (Reconcile_fetch_failure Sim.K 0 Sim.request
           (Sim.start (Scenario.clusterWithout (NotFound "oneagents")))
           (NotFound "oneagents")).
  reflexivity.
Defined.

(** The validation refuses the instance. *)
Lemma Reconcile_invalid_spec_witness :
  validate (Scenario.withValidate Scenario.rejectAll)
    (scheme_Default (Scenario.withValidate Scenario.rejectAll) (Sim.agent 300))
  = Some (Failure ".spec.apiUrl is missing")
  /\ Reconcile (Scenario.withValidate Scenario.rejectAll) 0 Sim.request
       (Sim.start (Sim.cluster (Sim.agent 300) []))
     = Ret ({| Requeue := false; RequeueAfter := 0 |},
            Some (Failure ".spec.apiUrl is missing"))
         {| world := Sim.cluster (Sim.agent 300) [];
            trace := [EvInfo "reconciling oneagent" []; EvGet Sim.request] |}.
Proof.
  split; [reflexivity|].
  apply (Reconcile_invalid_spec (Scenario.withValidate Scenario.rejectAll) 0 Sim.request
           (Sim.start (Sim.cluster (Sim.agent 300) [])) (Sim.agent 300)).
  - reflexivity.
  - reflexivity.
Defined.

(** The instance does not name its secret. *)
Lemma Reconcile_token_default_witness :
  Spec_Tokens (OneAgent_Spec (scheme_Default Sim.K Scenario.agentNoTokens)) = ""
  /\ exists s',
       Reconcile Sim.K 0 Sim.request (Sim.start (Sim.cluster Scenario.agentNoTokens []))
       = Ret ({| Requeue := true; RequeueAfter := 0 |}, None) s'.
Proof.
  split; [reflexivity|].
  destruct (Reconcile_token_default Sim.K 0 Sim.request
              (Sim.start (Sim.cluster Scenario.agentNoTokens []))
              Scenario.agentNoTokens (Sim.cluster Scenario.agentNoTokens [])
              eq_refl eq_refl eq_refl)
    as (instance' & r & s' & Hrun & _ & Htick).
  vm_compute in Hrun. injection Hrun as _ <- _.
  exists s'. exact Htick.
Defined.

(** The secret the instance names does not exist. *)
Lemma Reconcile_client_failure_witness :
  dynatraceClientFunc
    (newReconciler (Scenario.secrets emptySecret (Some (NotFound "secrets"))) Sim.K)
    (Sim.agent 300) (Sim.cluster (Sim.agent 300) [])
  = (inl (NotFound "secrets"), Sim.cluster (Sim.agent 300) [])
  /\ Reconcile
       (newReconciler (Scenario.secrets emptySecret (Some (NotFound "secrets"))) Sim.K)
       0 Sim.request (Sim.start (Sim.cluster (Sim.agent 300) []))
     = Ret ({| Requeue := false; RequeueAfter := 0 |}, Some (NotFound "secrets"))
         {| world := Sim.cluster (Sim.agent 300) [];
            trace := [EvInfo "reconciling oneagent" []; EvGet Sim.request; EvBuildClient] |}.
Proof.
  split; [reflexivity|].
  apply (Reconcile_client_failure
           (newReconciler (Scenario.secrets emptySecret (Some (NotFound "secrets"))) Sim.K)
           0 Sim.request (Sim.start (Sim.cluster (Sim.agent 300) [])) (Sim.agent 300)
           (Sim.cluster (Sim.agent 300) [])).
  - reflexivity.
  - reflexivity.
  - discriminate.
  - reflexivity.
Defined.

(** The tick on the instance with automatic update disabled ends with the
    empty result. *)
Lemma Reconcile_result_shape_witness :
  exists res err s',
    Reconcile Sim.K 0 Sim.request (Sim.start Sim.clusterNoUpdate) = Ret (res, err) s'
    /\ (err <> None -> res = {| Requeue := false; RequeueAfter := 0 |})
    /\ (res = {| Requeue := false; RequeueAfter := 0 |}
        \/ res = {| Requeue := true; RequeueAfter := 0 |}
        \/ res = {| Requeue := false; RequeueAfter := 5 * Minute |}
        \/ res = {| Requeue := false; RequeueAfter := 30 * Minute |}).
Proof.
  eexists _, _, _. split; [sim|].
  eapply (Reconcile_result_shape Sim.K 0 Sim.request (Sim.start Sim.clusterNoUpdate)).
  sim.
Defined.

Lemma reconcileSetup_handover_witness :
  exists dtc s',
    reconcileSetup Sim.K Sim.request (Sim.start Sim.clusterNoUpdate)
    = Ret (inr (Sim.agentNoUpdate, dtc)) s'
    /\ validate Sim.K Sim.agentNoUpdate = None
    /\ Spec_Tokens (OneAgent_Spec Sim.agentNoUpdate) <> ""
    /\ exists evs, trace s' = [] ++ evs /\ instanceWrites evs = [] /\ deletions evs = [].
Proof.
  eexists _, _. split; [sim|].
  match goal with
  | |- context [trace ?st = _] =>
      destruct (reconcileSetup_handover Sim.K Sim.request (Sim.start Sim.clusterNoUpdate)
                  Sim.agentNoUpdate tt st) as (_ & Hv & Ht & _ & Hevs)
  end.
  - sim.
  - split; [exact Hv|]. split; [exact Ht|]. exact Hevs.
Defined.

(** The rollout of the new version fails on the pod that is not recreated:
    the tick fails and the custom resource has not been written. *)
Lemma Reconcile_version_error_not_persisted_witness :
  exists instance' e s1 s2,
    reconcileSetup Sim.K Sim.request (Sim.start Scenario.clusterNewVersion)
    = Ret (inr (Sim.agent 10, tt)) s1
    /\ Spec_DisableAgentUpdate (OneAgent_Spec (Sim.agent 10)) = false
    /\ reconcileVersion Sim.K 1 (Sim.agent 10) tt s1 = Ret (instance', true, Some e) s2
    /\ Status_Version (OneAgent_Status instance') = "1.170.0"
    /\ Reconcile Sim.K 1 Sim.request (Sim.start Scenario.clusterNewVersion)
       = Ret ({| Requeue := false; RequeueAfter := 0 |}, Some e) s2
    /\ exists evs, trace s2 = [] ++ evs /\ instanceWrites evs = [].
Proof.
  eexists _, _, _, _. split; [sim|]. split; [reflexivity|]. split; [sim|].
  split; [reflexivity|].
  eapply (Reconcile_version_error_not_persisted Sim.K 1 Sim.request
            (Sim.start Scenario.clusterNewVersion)).
  - sim.
  - reflexivity.
  - sim.
Defined.

(** A timeout of 10 seconds leaves room for one poll. *)
Lemma waitPodReadyState_within_timeout_witness :
  Spec_WaitReadySeconds (OneAgent_Spec (Sim.agent 10)) = Some 10
  /\ 0 <= 10 <= 65530
  /\ (Z.to_nat ((10 + 9) / 10) <= 1)%nat
  /\ exists r s' answers,
       waitPodReadyState Sim.K 1 (Sim.agent 10) Sim.podA (Sim.start Sim.clusterNotReady)
       = Ret r s'
       /\ trace s' = [] ++ pollEvents (listOptionsFor Sim.K (Sim.agent 10)) answers
       /\ 10 * Z.of_nat (length answers) < 10 + 10.
Proof.
  split; [reflexivity|]. split; [lia|]. split; [vm_compute; lia|].
  apply (waitPodReadyState_within_timeout Sim.K 1 (Sim.agent 10) Sim.podA 10
           (Sim.start Sim.clusterNotReady)).
  - reflexivity.
  - lia.
  - vm_compute; lia.
Defined.

(** The two polls of the wait for node-a: the verdict is that of the
    second. *)
Lemma waitPodReadyState_returns_last_verdict_witness :
  exists s' answers answer,
    waitPodReadyState Sim.K 2 (Sim.agent 20) Sim.podA (Sim.start Sim.clusterTwoThenOne)
    = Ret None s'
    /\ trace s' = [] ++ pollEvents (listOptionsFor Sim.K (Sim.agent 20)) (answers ++ [answer])
    /\ None = match answer with
              | inl err => Some err
              | inr items =>
                  match length (candidatePods Sim.podA items) with
                  | 0%nat =>
                      Some (Errorf "waiting for pod to be recreated on node: %s"
                              [VStr (Pod_NodeName Sim.podA)])
                  | 1%nat => None
                  | n =>
                      Some (Errorf "too many pods found: expected=1 actual=%d"
                              [VInt (Z.of_nat n)])
                  end
              end.
Proof.
  eexists. 
  match goal with
  | |- exists answers answer, _ = Ret None ?st /\ _ =>
      destruct (waitPodReadyState_returns_last_verdict Sim.K 2 (Sim.agent 20) Sim.podA 20
                  (Sim.start Sim.clusterTwoThenOne) None st)
        as (answers & answer & Ht & Hr)
  end.
  - reflexivity.
  - lia.
  - sim.
  - exists answers, answer. split; [sim|]. split; [exact Ht|exact Hr].
Defined.

(** The version step with a new version and a rollout that fails: the
    update is asked for, the status in memory has changed. *)
Lemma reconcileVersion_flag_iff_status_changed_witness :
  exists instance' e s',
    reconcileVersion Sim.K 1 (Sim.agent 10) tt (Sim.start Scenario.clusterNewVersion)
    = Ret (instance', true, Some e) s'
    /\ OneAgent_Spec instance' = OneAgent_Spec (Sim.agent 10)
    /\ (true = true <-> OneAgent_Status instance' <> OneAgent_Status (Sim.agent 10)).
Proof.
  eexists _, _, _. split; [sim|].
  refine ((fun H => conj (proj1 (proj2 (proj2 H))) (proj2 (proj2 (proj2 (proj2 H)))))
            (reconcileVersion_flag_iff_status_changed Sim.K 1 (Sim.agent 10) tt
               (Sim.start Scenario.clusterNewVersion) _ true _ _ _)).
  sim.
Defined.

Lemma reconcileVersion_records_version_witness :
  exists instance' e s',
    GetVersionForLatest Sim.K tt (world (Sim.start Scenario.clusterNewVersion))
    = (inr "1.170.0", Scenario.clusterNewVersion)
    /\ reconcileVersion Sim.K 1 (Sim.agent 10) tt (Sim.start Scenario.clusterNewVersion)
       = Ret (instance', true, Some e) s'
    /\ Status_Version (OneAgent_Status instance')
       = if String.eqb "1.170.0" "" then Status_Version (OneAgent_Status (Sim.agent 10))
         else "1.170.0".
Proof.
  eexists _, _, _. split; [reflexivity|]. split; [sim|].
  eapply (reconcileVersion_records_version Sim.K 1 (Sim.agent 10) tt
            (Sim.start Scenario.clusterNewVersion) "1.170.0").
  - reflexivity.
  - sim.
Defined.

(** The one delete of that run is for the pod [getPodsToRestart] names. *)
Lemma reconcileVersion_deletes_only_stale_witness :
  GetVersionForLatest Sim.K tt (world (Sim.start Scenario.clusterNewVersion))
  = (inr "1.170.0", Scenario.clusterNewVersion)
  /\ exists evs k,
       trace (final (reconcileVersion Sim.K 1 (Sim.agent 10) tt
                       (Sim.start Scenario.clusterNewVersion)))
       = [] ++ evs
       /\ storeWrites evs = map EvDelete (deletions evs)
       /\ deletions evs = take k [Sim.podA].
Proof.
  split; [reflexivity|].
  destruct (reconcileVersion_deletes_only_stale Sim.K 1 (Sim.agent 10) tt
              (Sim.start Scenario.clusterNewVersion) "1.170.0" Scenario.clusterNewVersion
              eq_refl)
    as (evs & Ht & Hw & Hd).
  vm_compute in Hd. destruct Hd as (k & Hd).
  exists evs, k. split; [exact Ht|]. split; [exact Hw|]. exact Hd.
Defined.

(** The tick on a cluster that has converged. *)
Lemma reconcileUpdate_steady_state_witness :
  Spec_DisableAgentUpdate (OneAgent_Spec (Sim.agent 300)) = false
  /\ GetVersionForLatest Sim.K tt (world (Sim.start (Sim.cluster (Sim.agent 300) [])))
     = (inr "1.169.0", Sim.cluster (Sim.agent 300) [])
  /\ reconcileUpdate Sim.K 0 (Sim.agent 300) tt (Sim.start (Sim.cluster (Sim.agent 300) []))
     = Ret ({| Requeue := false; RequeueAfter := 30 * Minute |}, None)
         {| world := Sim.cluster (Sim.agent 300) [];
            trace :=
              [EvGetVersion; EvList (listOptionsFor Sim.K (Sim.agent 300)) (inr []);
               EvGetPodsToRestart; EvInfo "pods to delete" [("count", VInt 0)]] |}.
Proof.
  split; [reflexivity|]. split; [reflexivity|].
  apply (reconcileUpdate_steady_state Sim.K 0 (Sim.agent 300) tt
           (Sim.start (Sim.cluster (Sim.agent 300) [])) "1.169.0"
           (Sim.cluster (Sim.agent 300) []) [] (Sim.cluster (Sim.agent 300) []) None
           (Sim.cluster (Sim.agent 300) [])).
  - reflexivity.
  - reflexivity.
  - right. reflexivity.
  - reflexivity.
  - reflexivity.
  - reflexivity.
Defined.

(** The tick that puts the installer token in: both writes are made and the
    tick asks to be requeued after 5 minutes. *)
Lemma Reconcile_writes_instance_at_most_once_witness :
  exists res s' evs o o',
    Reconcile Sim.K 0 Sim.request (Sim.start (Sim.cluster Scenario.agentWithProxy []))
    = Ret (res, None) s'
    /\ RequeueAfter res = 5 * Minute
    /\ trace s' = [] ++ evs
    /\ instanceWrites evs = [EvUpdate o; EvStatusUpdate o'].
Proof.
  eexists.
  match goal with
  | |- exists s' evs o o', _ = Ret (?res, None) s' /\ _ =>
      eexists;
      match goal with
      | |- exists evs o o', _ = Ret _ ?st /\ _ =>
          destruct (Reconcile_writes_instance_at_most_once Sim.K 0 Sim.request
                      (Sim.start (Sim.cluster Scenario.agentWithProxy [])) res None st)
            as (evs & Ht & _ & _ & H5)
      end
  end.
  - sim.
  - destruct (H5 eq_refl) as (_ & o & o' & Hw).
    exists evs, o, o'. split; [sim|]. split; [reflexivity|]. split; [exact Ht|exact Hw].
Defined.

(** The rollout on an instance without a readiness timeout. *)
Lemma deletePods_nil_timeout_panics_witness :
  Spec_WaitReadySeconds (OneAgent_Spec Scenario.agentNoTimeout) = None
  /\ exists s',
       deletePods Sim.K 1 Scenario.agentNoTimeout [Sim.podA; Sim.podB]
         (Sim.start (Sim.cluster Scenario.agentNoTimeout [Sim.podA; Sim.podB]))
       = Panic "nil pointer dereference" s'
       /\ deletions (trace s') = [] ++ [Sim.podA]
       /\ Sim.c_pods (world s') = [Sim.podB].
Proof.
  split; [reflexivity|].
  destruct (deletePods_nil_timeout_panics Sim.K 1 Scenario.agentNoTimeout Sim.podA [Sim.podB]
              (Sim.start (Sim.cluster Scenario.agentNoTimeout [Sim.podA; Sim.podB]))
              (Sim.setPods (Sim.cluster Scenario.agentNoTimeout [Sim.podA; Sim.podB])
                 [Sim.podB])
              eq_refl eq_refl)
    as (s' & Hrun & Hw & Hd & _).
  exists s'. split; [exact Hrun|]. split; [exact Hd|]. now rewrite Hw.
Defined.

(** The daemonset desired for the instance with the proxy. *)
Lemma desired_daemonset_env_witness :
  Spec_Env (OneAgent_Spec Scenario.agentWithProxy) !! 0%nat = Some Scenario.proxyEnv
  /\ exists c env1,
       PodSpec_Containers
         (DSSpec_TemplateSpec
            (DaemonSet_Spec
               (newDaemonSetForCR Sim.K (withInstallerToken Scenario.agentWithProxy))))
       = [c]
       /\ Container_Env c = env1 :: Spec_Env (OneAgent_Spec Scenario.agentWithProxy)
       /\ EnvVar_Name env1 = "ONEAGENT_INSTALLER_TOKEN".
Proof.
  split; [reflexivity|].
  destruct (desired_daemonset_env Sim.K Scenario.agentWithProxy Scenario.proxyEnv eq_refl)
    as ((c & env1 & rest & Hc & He & Hn & Hrest) & _).
  destruct Hrest as [-> _]; [discriminate|].
  exists c, env1. split; [exact Hc|]. split; [exact He|exact Hn].
Defined.

(** C9, the code at the failing input.  With a readiness timeout of zero
    seconds the wait for a node returns nil without a poll, so the rollout
    of two stale pods deletes both back to back, in list order, each
    "confirmed" at once: no sleep and no list call lies between the two
    deletes, and when the rollout returns, without error, neither of the two
    nodes has a running agent pod. *)
Theorem deletePods_zero_timeout_deletes_all (fuel : nat) :
  hasRunningAgent "node-a" (Sim.c_pods Scenario.clusterNoWait) = true
  /\ hasRunningAgent "node-b" (Sim.c_pods Scenario.clusterNoWait) = true
  /\ exists s',
       deletePods Sim.K fuel (Sim.agent 0) [Sim.podA; Sim.podB]
         (Sim.start Scenario.clusterNoWait)
       = Ret None s'
       /\ deletions (trace s') = [Sim.podA; Sim.podB]
       /\ confirmations (trace s') = 2%nat
       /\ polls (trace s') = 0%nat /\ sleeps (trace s') = 0%nat
       /\ hasRunningAgent "node-a" (Sim.c_pods (world s')) = false
       /\ hasRunningAgent "node-b" (Sim.c_pods (world s')) = false.
Proof.
  split; [reflexivity|]. split; [reflexivity|].
  destruct fuel; eexists; (split; [sim|]); repeat split.
Qed.
